(** * Wazuh SOC health check: a model of [health_check.py]

    The script probes three services over HTTP, checks that the three
    configured URLs use HTTPS, stores the four outcomes in the dictionary
    [health_status], derives a percentage score from it, prints a report and
    returns an exit code.

    The model keeps the shape of the script: Python dictionaries are
    association lists in insertion order, the score is an IEEE binary64
    number (Rocq's primitive floats), and the effects of the script (HTTP
    requests, clock reads, lines printed, exceptions) are threaded through a
    small state-and-exception monad. *)

From Stdlib Require Import ZArith List String Ascii Bool Lia QArith.
From Stdlib Require Import Floats Uint63 DecimalString.
Import ListNotations.

Set Implicit Arguments.
Open Scope string_scope.
Open Scope Z_scope.

(** ** Python primitives used by the script *)

Module Py.

(** [str(n)] for an [int]. *)
Definition str_of_int (z : Z) : string :=
  NilZero.string_of_int (Z.to_int z).

(** The newline character of ["\n"]. *)
Definition nl : string := String (ascii_of_nat 10) EmptyString.

(** [s * n] on strings. *)
Fixpoint str_mul (s : string) (n : nat) : string :=
  match n with
  | O => EmptyString
  | S n' => s ++ str_mul s n'
  end.

(** [sep.join(parts)]. *)
Definition join (sep : string) (parts : list string) : string :=
  String.concat sep parts.

(** [s.replace(old, new)] when [old] and [new] are single characters. *)
Fixpoint replace (old new : ascii) (s : string) : string :=
  match s with
  | EmptyString => EmptyString
  | String c rest =>
      String (if Ascii.eqb c old then new else c) (replace old new rest)
  end.

Definition is_upper (c : ascii) : bool :=
  (65 <=? nat_of_ascii c)%nat && (nat_of_ascii c <=? 90)%nat.
Definition is_lower (c : ascii) : bool :=
  (97 <=? nat_of_ascii c)%nat && (nat_of_ascii c <=? 122)%nat.
Definition to_upper (c : ascii) : ascii :=
  if is_lower c then ascii_of_nat (nat_of_ascii c - 32) else c.
Definition to_lower (c : ascii) : ascii :=
  if is_upper c then ascii_of_nat (nat_of_ascii c + 32) else c.

(** [s.title()] on ASCII text: a letter that follows a letter is lowered,
    any other letter is raised, other characters are kept.  The flag says
    whether the previous character was a letter. *)
Fixpoint title_from (previous_is_cased : bool) (s : string) : string :=
  match s with
  | EmptyString => EmptyString
  | String c rest =>
      if is_upper c || is_lower c
      then String (if previous_is_cased then to_lower c else to_upper c)
                  (title_from true rest)
      else String c (title_from false rest)
  end.
Definition title (s : string) : string := title_from false s.

(** *** Dictionaries

    A [dict] keeps its keys in insertion order; assigning to a key that is
    present replaces the value in place, assigning to a new key appends
    it.  Reading a key that is absent is a [KeyError], here [None]. *)
Section Dict.
Variable V : Type.

Definition dict := list (string * V).

Fixpoint getitem (d : dict) (k : string) : option V :=
  match d with
  | [] => None
  | (k', v) :: rest => if String.eqb k' k then Some v else getitem rest k
  end.

Fixpoint setitem (d : dict) (k : string) (v : V) : dict :=
  match d with
  | [] => [(k, v)]
  | (k', v') :: rest =>
      if String.eqb k' k then (k', v) :: rest
      else (k', v') :: setitem rest k v
  end.

Definition keys (d : dict) : list string := map fst d.
Definition values (d : dict) : list V := map snd d.
Definition items (d : dict) : list (string * V) := d.
Definition len (d : dict) : Z := Z.of_nat (List.length d).
End Dict.

(** [sum(bools)]: [True] counts 1 and [False] counts 0, added from 0 and
    from the left. *)
Definition sum (bs : list bool) : Z :=
  fold_left (fun acc (b : bool) => acc + Z.b2z b) bs 0.

(** [float(n)] for an [int]; exact when [|n| < 2^53]. *)
Definition float_of_int (z : Z) : float :=
  if z <? 0 then PrimFloat.opp (PrimFloat.of_uint63 (Uint63.of_Z (- z)))
  else PrimFloat.of_uint63 (Uint63.of_Z z).

(** A number that is an [int] or a [float], as a Python variable may hold
    either. *)
Inductive num :=
| Int (z : Z)
| Float (x : float).

End Py.

(** ** The exact value of a float *)

(** The rational number that a finite binary64 value stands for; [None] for
    infinities and NaN. *)
Definition Q_of_spec_float (x : spec_float) : option Q :=
  match x with
  | S754_zero _ => Some 0%Q
  | S754_finite s m e =>
      let mant := if s then Z.neg m else Z.pos m in
      Some (if 0 <=? e then inject_Z (mant * 2 ^ e)
            else Qmake mant (Z.to_pos (2 ^ (- e))))
  | S754_infinity _ | S754_nan => None
  end.

Definition float_value (x : float) : option Q := Q_of_spec_float (Prim2SF x).

(** ** Exceptions and results *)

(** A raised exception, by what the script can observe of it: the outcome of
    the [isinstance] tests of its [except] clauses and [str(e)]. *)
Record exn := {
  exn_class : string;
  is_SSLError : bool;
  is_ConnectionError : bool;
  is_Timeout : bool;
  is_Exception : bool;
  is_KeyboardInterrupt : bool;
  exn_str : string
}.

Inductive outcome (A : Type) :=
| Return (a : A)
| Raise (e : exn).
Arguments Return {A} a.
Arguments Raise {A} e.

Definition KeyError (k : string) : exn :=
  {| exn_class := "KeyError";
     is_SSLError := false; is_ConnectionError := false; is_Timeout := false;
     is_Exception := true; is_KeyboardInterrupt := false;
     exn_str := "'" ++ k ++ "'" |}.

Definition ZeroDivisionError : exn :=
  {| exn_class := "ZeroDivisionError";
     is_SSLError := false; is_ConnectionError := false; is_Timeout := false;
     is_Exception := true; is_KeyboardInterrupt := false;
     exn_str := "division by zero" |}.

(** [a / b] on two [int]s: true division, a [ZeroDivisionError] when [b] is
    zero.  Python rounds the exact quotient once; for operands below [2^53]
    that is the IEEE quotient of the two converted operands. *)
Definition truediv (a b : Z) : outcome float :=
  if b =? 0 then Raise ZeroDivisionError
  else Return (PrimFloat.div (Py.float_of_int a) (Py.float_of_int b)).

(** ** The outside world *)

(** What [requests.get] is called with. *)
Record request := {
  req_url : string;
  req_timeout : Z;
  req_verify : bool
}.

(** What the script reads of a [requests.Response]. *)
Record response := {
  status_code : Z
}.

(** The environment of one run.  [http_get n r] is what the [n]-th call of
    [requests.get] gives for request [r]: a response or a raised exception.
    [time_time n] is the [n]-th reading of [time.time()].  [getenv] is the
    process environment after [load_dotenv()].  [urlparse_scheme u] is
    [urlparse(u).scheme], or the exception [urlparse] raises on [u]. *)
Record world := {
  getenv : string -> option string;
  path_exists : string -> bool;
  http_get : nat -> request -> outcome response;
  time_time : nat -> float;
  urlparse_scheme : string -> outcome string
}.

(** One piece of a printed line: literal text, or a number under a fixed
    point format such as [{x:.2f}]. *)
Inductive fragment :=
| Str (s : string)
| Fixed (digits : nat) (x : Py.num).

Definition line := list fragment.

(** What a run has done so far. *)
Record state := {
  requests_sent : list request;
  clock_reads : nat;
  stdout : list line
}.

Definition initial_state : state :=
  {| requests_sent := []; clock_reads := 0; stdout := [] |}.

(** ** The monad of the script *)

Definition M (A : Type) : Type := state -> outcome A * state.

Definition ret {A} (a : A) : M A := fun s => (Return a, s).

Definition bind {A B} (c : M A) (k : A -> M B) : M B :=
  fun s =>
    match c s with
    | (Return a, s') => k a s'
    | (Raise e, s') => (Raise e, s')
    end.

Definition raise {A} (e : exn) : M A := fun s => (Raise e, s).

Definition lift {A} (o : outcome A) : M A := fun s => (o, s).

(** [try: body / except ...: handler]: [handler e] is [None] when no clause
    matches [e], and the exception goes on. *)
Definition try_except {A} (body : M A) (handler : exn -> option (M A)) : M A :=
  fun s =>
    match body s with
    | (Return a, s') => (Return a, s')
    | (Raise e, s') =>
        match handler e with
        | Some h => h s'
        | None => (Raise e, s')
        end
    end.

Declare Scope py_scope.
Delimit Scope py_scope with py.
Notation "x <- c ;; k" := (bind c (fun x => k))
  (at level 61, c at next level, right associativity) : py_scope.
Notation "c ;; k" := (bind c (fun _ => k))
  (at level 61, right associativity) : py_scope.
Open Scope py_scope.

Definition print (l : line) : M unit :=
  fun s => (Return tt,
            {| requests_sent := requests_sent s;
               clock_reads := clock_reads s;
               stdout := (stdout s ++ [l])%list |}).

(** [print(text)] for a plain string. *)
Definition print_str (text : string) : M unit := print [Str text].

(** [d[k]] for reading: a [KeyError] when [k] is absent. *)
Definition subscript {V} (d : Py.dict V) (k : string) : M V :=
  match Py.getitem d k with
  | Some v => ret v
  | None => raise (KeyError k)
  end.

(** [for x in xs: body(x)]. *)
Fixpoint for_each {A} (xs : list A) (body : A -> M unit) : M unit :=
  match xs with
  | [] => ret tt
  | x :: rest => body x ;; for_each rest body
  end.

(** [{error}] inside an f-string, for a value that is a string or [None]. *)
Definition fmt_optional (error : option string) : string :=
  match error with
  | Some text => text
  | None => "None"
  end.

(** ** The script *)

Module HealthCheck.

(** The keys of [health_status], in the order the dictionary literal
    declares them. *)
Definition component_keys : list string :=
  ["dashboard_ui"; "manager_api"; "indexer_api"; "ssl_validation"].

(** The dictionary literal [health_status] starts from. *)
Definition initial_health_status : Py.dict bool :=
  [("dashboard_ui", false); ("manager_api", false);
   ("indexer_api", false); ("ssl_validation", false)].

(** The default of the [timeout] parameter of both probes. *)
Definition default_timeout : Z := 10.

(** *** The score (the "Calculate health score" lines of [main]) *)

Definition health_score (health_status : Py.dict bool) : outcome float :=
  let healthy_components := Py.sum (Py.values health_status) in
  let total_components := Py.len health_status in
  match truediv healthy_components total_components with
  | Return ratio => Return (PrimFloat.mul ratio (Py.float_of_int 100))
  | Raise e => Raise e
  end.

(** *** The verdict (the "Final status" lines of [main]) *)

Inductive verdict := Healthy | Degraded | Unhealthy.

(** Which of the three branches of the final [if] a score takes.  A float
    is compared with the integers 75 and 50, both exact in binary64. *)
Definition classify (score : float) : verdict :=
  if PrimFloat.leb 75 score then Healthy
  else if PrimFloat.leb 50 score then Degraded
  else Unhealthy.

(** What each branch returns. *)
Definition exit_code (v : verdict) : Z :=
  match v with
  | Healthy => 0
  | Degraded => 1
  | Unhealthy => 2
  end.

(** What each branch prints. *)
Definition final_message (v : verdict) (score : float) : line :=
  match v with
  | Healthy =>
      [Str (Py.nl ++ "🎉 System is healthy! (");
       Fixed 1 (Py.Float score); Str "%)"]
  | Degraded =>
      [Str (Py.nl ++ "⚠️  System has issues but is operational (");
       Fixed 1 (Py.Float score); Str "%)"]
  | Unhealthy =>
      [Str (Py.nl ++ "❌ System is unhealthy (");
       Fixed 1 (Py.Float score); Str "%)"]
  end.

Definition final_status (score : float) : M Z :=
  let v := classify score in
  print (final_message v score) ;;
  ret (exit_code v).

(** *** Recommendations *)

(** The two hints printed for a component that is not healthy. *)
Definition hints (component : string) : list string :=
  if String.eqb component "dashboard_ui" then
    ["  - Check dashboard service status and network connectivity";
     "  - Verify dashboard is running on the expected port"]
  else if String.eqb component "manager_api" then
    ["  - Verify manager service is running";
     "  - Check manager API configuration and firewall rules"]
  else if String.eqb component "indexer_api" then
    ["  - Check indexer service status";
     "  - Verify indexer cluster health"]
  else if String.eqb component "ssl_validation" then
    ["  - Ensure all endpoints use HTTPS";
     "  - Check SSL certificate configuration"]
  else [].

(** [if not health_status[component]: print(...); print(...)]. *)
Definition recommend_for (health_status : Py.dict bool) (component : string)
  : M unit :=
  status <- subscript health_status component ;;
  if negb status then for_each (hints component) print_str else ret tt.

Definition recommendations_header : string :=
  Py.nl ++ "🔧 Recommendations:".

(** The "Recommendations" block of [main]. *)
Definition print_recommendations (score : float)
           (health_status : Py.dict bool) : M unit :=
  if PrimFloat.ltb score 100 then
    print_str recommendations_header ;;
    recommend_for health_status "dashboard_ui" ;;
    recommend_for health_status "manager_api" ;;
    recommend_for health_status "indexer_api" ;;
    recommend_for health_status "ssl_validation"
  else ret tt.

(** The recommendation lines of a status dictionary: what the block
    prints, on an empty output, below its header. *)
Definition recommend (health_status : Py.dict bool) : outcome (list line) :=
  match health_score health_status with
  | Return score =>
      match print_recommendations score health_status initial_state with
      | (Return _, s) => Return (tl (stdout s))
      | (Raise e, _) => Raise e
      end
  | Raise e => Raise e
  end.

(** *** The component summary *)

Definition print_component (item : string * bool) : M unit :=
  let (component, status) := item in
  let status_icon := if status then "✅" else "❌" in
  let status_text := if status then "Healthy" else "Unhealthy" in
  print_str ("  " ++ status_icon ++ " "
             ++ Py.title (Py.replace "_" " " component) ++ ": " ++ status_text).

(** Everything [main] does once [health_status] is complete. *)
Definition report (health_status : Py.dict bool) : M Z :=
  let healthy_components := Py.sum (Py.values health_status) in
  let total_components := Py.len health_status in
  score <- lift (health_score health_status) ;;
  print_str (Py.nl ++ Py.str_mul "=" 50) ;;
  print [Str "📊 System Health Score: "; Fixed 1 (Py.Float score);
         Str ("% (" ++ Py.str_of_int healthy_components ++ "/"
              ++ Py.str_of_int total_components ++ " components healthy)")] ;;
  print_str (Py.nl ++ "📋 Component Status:") ;;
  for_each (Py.items health_status) print_component ;;
  print_recommendations score health_status ;;
  final_status score.

Section Run.
Variable w : world.

(** [requests.get(url, timeout=timeout, verify=verify)]. *)
Definition requests_get (url : string) (timeout : Z) (verify : bool)
  : M response :=
  fun s =>
    let r := {| req_url := url; req_timeout := timeout;
                req_verify := verify |} in
    (http_get w (List.length (requests_sent s)) r,
     {| requests_sent := (requests_sent s ++ [r])%list;
        clock_reads := clock_reads s;
        stdout := stdout s |}).

(** [time.time()]. *)
Definition time : M float :=
  fun s =>
    (Return (time_time w (clock_reads s)),
     {| requests_sent := requests_sent s;
        clock_reads := S (clock_reads s);
        stdout := stdout s |}).

(** [os.getenv(name, default)]. *)
Definition os_getenv (name default : string) : string :=
  match getenv w name with
  | Some value => value
  | None => default
  end.

(** [urlparse(url).scheme]. *)
Definition scheme_of (url : string) : M string :=
  lift (urlparse_scheme w url).

(** **** The two probes *)

Definition check_endpoint (url name : string) (timeout : Z)
  : M (bool * Py.num * Z * option string) :=
  try_except
    (start_time <- time ;;
     response <- requests_get url timeout false ;;
     end_time <- time ;;
     let response_time := PrimFloat.sub end_time start_time in
     if status_code response =? 200
     then ret (true, Py.Float response_time, status_code response, None)
     else ret (false, Py.Float response_time, status_code response,
               Some ("HTTP " ++ Py.str_of_int (status_code response))))
    (fun e =>
       if is_SSLError e
       then Some (ret (false, Py.Int 0, 0, Some ("SSL Error: " ++ exn_str e)))
       else if is_ConnectionError e
       then Some (ret (false, Py.Int 0, 0,
                       Some ("Connection Error: " ++ exn_str e)))
       else if is_Timeout e
       then Some (ret (false, Py.Int 0, 0, Some ("Timeout: " ++ exn_str e)))
       else if is_Exception e
       then Some (ret (false, Py.Int 0, 0, Some ("Error: " ++ exn_str e)))
       else None).

Definition check_ui_accessibility (url : string) (timeout : Z)
  : M (bool * Z * option string) :=
  try_except
    (response <- requests_get url timeout false ;;
     if status_code response =? 200
     then ret (true, status_code response, None)
     else ret (false, status_code response,
               Some ("HTTP " ++ Py.str_of_int (status_code response))))
    (fun e =>
       if is_Exception e
       then Some (ret (false, 0, Some (exn_str e)))
       else None).

(** **** The configuration and the four blocks of [main] *)

Definition load_config : Py.dict string :=
  [("dashboard_url",
    os_getenv "WAZUH_DASHBOARD_URL" "https://localhost:443");
   ("manager_api_url",
    os_getenv "WAZUH_MANAGER_API_URL" "https://localhost:55000");
   ("indexer_url",
    os_getenv "WAZUH_INDEXER_URL" "https://localhost:9200")].

(** "Test Dashboard UI". *)
Definition test_dashboard_ui (config : Py.dict string)
           (health_status : Py.dict bool) : M (Py.dict bool) :=
  print_str "🔍 Checking Dashboard UI..." ;;
  url <- subscript config "dashboard_url" ;;
  result <- check_ui_accessibility url default_timeout ;;
  let '(accessible, status, error) := result in
  if (accessible : bool) then
    print_str ("✅ Dashboard UI: Accessible (HTTP "
               ++ Py.str_of_int status ++ ")") ;;
    ret (Py.setitem health_status "dashboard_ui" true)
  else
    print_str ("❌ Dashboard UI: Not accessible - "
               ++ fmt_optional error) ;;
    ret health_status.

(** "Test Manager API". *)
Definition test_manager_api (config : Py.dict string)
           (health_status : Py.dict bool) : M (Py.dict bool) :=
  print_str (Py.nl ++ "🔍 Checking Manager API...") ;;
  url <- subscript config "manager_api_url" ;;
  result <- check_endpoint url "Manager API" default_timeout ;;
  let '(accessible, response_time, status, error) := result in
  if (accessible : bool) then
    print [Str ("✅ Manager API: Healthy (HTTP "
                ++ Py.str_of_int status ++ ", ");
           Fixed 2 response_time; Str "s)"] ;;
    ret (Py.setitem health_status "manager_api" true)
  else
    print_str ("❌ Manager API: Unhealthy - " ++ fmt_optional error) ;;
    ret health_status.

(** "Test Indexer API". *)
Definition test_indexer_api (config : Py.dict string)
           (health_status : Py.dict bool) : M (Py.dict bool) :=
  print_str (Py.nl ++ "🔍 Checking Indexer API...") ;;
  url <- subscript config "indexer_url" ;;
  result <- check_endpoint url "Indexer API" default_timeout ;;
  let '(accessible, response_time, status, error) := result in
  if (accessible : bool) then
    print [Str ("✅ Indexer API: Healthy (HTTP "
                ++ Py.str_of_int status ++ ", ");
           Fixed 2 response_time; Str "s)"] ;;
    ret (Py.setitem health_status "indexer_api" true)
  else
    print_str ("❌ Indexer API: Unhealthy - " ++ fmt_optional error) ;;
    ret health_status.

(** The loop of "Test SSL Configuration": [ssl_issues] collects the
    names whose URL scheme is not ["https"]. *)
Fixpoint ssl_loop (endpoints : list (string * string))
         (ssl_issues : list string) : M (list string) :=
  match endpoints with
  | [] => ret ssl_issues
  | (name, url) :: rest =>
      scheme <- scheme_of url ;;
      if String.eqb scheme "https" then
        print_str ("✅ " ++ name ++ ": HTTPS configured") ;;
        ssl_loop rest ssl_issues
      else
        print_str ("❌ " ++ name ++ ": Not using HTTPS") ;;
        ssl_loop rest (ssl_issues ++ [name])%list
  end.

(** "Test SSL Configuration". *)
Definition test_ssl_configuration (config : Py.dict string)
           (health_status : Py.dict bool) : M (Py.dict bool) :=
  print_str (Py.nl ++ "🔍 Checking SSL Configuration...") ;;
  dashboard_url <- subscript config "dashboard_url" ;;
  manager_api_url <- subscript config "manager_api_url" ;;
  indexer_url <- subscript config "indexer_url" ;;
  ssl_issues <- ssl_loop [("Dashboard", dashboard_url);
                          ("Manager API", manager_api_url);
                          ("Indexer API", indexer_url)] [] ;;
  match ssl_issues with
  | [] =>
      let health_status := Py.setitem health_status "ssl_validation" true in
      print_str "✅ All endpoints use HTTPS" ;;
      ret health_status
  | _ =>
      print_str ("⚠️  SSL issues found with: "
                 ++ Py.join ", " ssl_issues) ;;
      ret health_status
  end.

(** What [main] prints before the first probe. *)
Definition preamble : M unit :=
  print_str "🔒 Wazuh SOC Health Check" ;;
  print_str (Py.str_mul "=" 50) ;;
  if negb (path_exists w ".env") then
    print_str "⚠️  No .env file found. Using default localhost URLs." ;;
    print_str ("   Create .env file from env.example for production URLs."
               ++ Py.nl)
  else ret tt.

(** **** [main] *)

Definition main : M Z :=
  preamble ;;
  let config := load_config in
  let health_status := initial_health_status in
  health_status <- test_dashboard_ui config health_status ;;
  health_status <- test_manager_api config health_status ;;
  health_status <- test_indexer_api config health_status ;;
  health_status <- test_ssl_configuration config health_status ;;
  report health_status.

(** The four probe blocks in the order [main] runs them, and [main] cut
    after the first [n] of them: the value of [health_status] there. *)
Definition blocks
  : list (Py.dict string -> Py.dict bool -> M (Py.dict bool)) :=
  [test_dashboard_ui; test_manager_api; test_indexer_api;
   test_ssl_configuration].

Fixpoint run_blocks
         (bs : list (Py.dict string -> Py.dict bool -> M (Py.dict bool)))
         (config : Py.dict string) (health_status : Py.dict bool)
  : M (Py.dict bool) :=
  match bs with
  | [] => ret health_status
  | block :: rest =>
      health_status <- block config health_status ;;
      run_blocks rest config health_status
  end.

Definition main_upto (n : nat) : M (Py.dict bool) :=
  preamble ;;
  run_blocks (firstn n blocks) load_config initial_health_status.

(** **** The [if __name__ == "__main__"] block *)

(** How the process ends: [sys.exit(code)], or an exception no clause
    catches. *)
Inductive ending :=
| Exit (code : Z)
| Uncaught (e : exn).

Definition script (s : state) : ending * state :=
  match main s with
  | (Return code, s') => (Exit code, s')
  | (Raise e, s') =>
      if is_KeyboardInterrupt e then
        (Exit 1,
         snd (print_str (Py.nl ++ Py.nl
                         ++ "⏹️  Health check interrupted by user") s'))
      else if is_Exception e then
        (Exit 1,
         snd (print_str (Py.nl ++ "❌ Unexpected error: " ++ exn_str e) s'))
      else (Uncaught e, s')
  end.
End Run.

End HealthCheck.

(** ** The session of the test suite ([tests/conftest.py])

    The tests send their requests through one [requests.Session], built by
    the fixture [api_session]: both URL prefixes are mounted on an adapter
    that retries, and certificate verification is switched off on the
    session.  The tests call [api_session.get(url, timeout=...)] and never
    pass [verify].  Such a request does not simply take the setting of the
    session: [Session.request] first merges the environment, and a session
    that trusts the environment (the default, which the fixture keeps)
    replaces a missing [verify] by the CA bundle that [REQUESTS_CA_BUNDLE]
    or [CURL_CA_BUNDLE] names, before the setting of the session is
    consulted. *)

Module Conftest.

Record retry := {
  total : Z;
  backoff_factor : Z;
  status_forcelist : list Z
}.

Record session := {
  session_verify : bool;
  trust_env : bool;
  adapters : list (string * retry)
}.

(** [requests.Session()]: certificates are verified unless told otherwise,
    and the environment is trusted. *)
Definition new_session : session :=
  {| session_verify := true; trust_env := true; adapters := [] |}.

(** [session.mount(prefix, HTTPAdapter(max_retries=strategy))]. *)
Definition mount (s : session) (prefix : string) (strategy : retry) : session :=
  {| session_verify := session_verify s;
     trust_env := trust_env s;
     adapters := ((prefix, strategy) :: adapters s)%list |}.

(** [session.verify = value]. *)
Definition set_verify (s : session) (value : bool) : session :=
  {| session_verify := value;
     trust_env := trust_env s;
     adapters := adapters s |}.

Definition api_session : session :=
  let session := new_session in
  let retry_strategy :=
    {| total := 3; backoff_factor := 1;
       status_forcelist := [429; 500; 502; 503; 504] |} in
  let session := mount session "http://" retry_strategy in
  let session := mount session "https://" retry_strategy in
  set_verify session false.

(** The [verify] setting of a request: a boolean, or the path of a CA
    bundle. *)
Inductive verify_setting :=
| Verify (on : bool)
| Bundle (path : string).

(** [os.environ.get(name)] as the operand of [or]: unset and empty both
    count as false. *)
Definition environ_get (environ : string -> option string) (name : string)
  : option string :=
  match environ name with
  | Some EmptyString => None
  | other => other
  end.

(** [os.environ.get("REQUESTS_CA_BUNDLE") or
    os.environ.get("CURL_CA_BUNDLE")]. *)
Definition ca_bundle (environ : string -> option string) : option string :=
  match environ_get environ "REQUESTS_CA_BUNDLE" with
  | Some path => Some path
  | None => environ_get environ "CURL_CA_BUNDLE"
  end.

(** What [Session.merge_environment_settings] makes of the [verify] argument
    of a request ([None] when the caller passes none): with [trust_env], a
    [verify] that is [True] or [None] gives way to the CA bundle of the
    environment when there is one; then the request's setting, if any, wins
    over the session's. *)
Definition merge_environment_settings (environ : string -> option string)
           (s : session) (verify : option verify_setting) : verify_setting :=
  let verify :=
    if trust_env s then
      match verify with
      | None | Some (Verify true) =>
          match ca_bundle environ with
          | Some path => Some (Bundle path)
          | None => verify
          end
      | _ => verify
      end
    else verify in
  match verify with
  | Some setting => setting
  | None => Verify (session_verify s)
  end.

(** Whether the certificate of the server is verified under a setting: a CA
    bundle means verification against that bundle. *)
Definition verifies (setting : verify_setting) : bool :=
  match setting with
  | Verify on => on
  | Bundle _ => true
  end.

(** The request that [session.get(url, timeout=timeout)] sends in the
    environment [environ]. *)
Definition session_get (environ : string -> option string) (s : session)
           (url : string) (timeout : Z) : request :=
  {| req_url := url; req_timeout := timeout;
     req_verify := verifies (merge_environment_settings environ s None) |}.

End Conftest.

(** * Properties *)

Import HealthCheck.

(** ** Status dictionaries *)

(** The number of entries of a dictionary that are [True]. *)
Definition healthy_count (health_status : Py.dict bool) : Z :=
  Z.of_nat (count_occ bool_dec (Py.values health_status) true).

(** A dictionary with the four declared keys, in their order, is the list
    of these keys paired with four booleans. *)
Lemma four_keys (health_status : Py.dict bool) :
  Py.keys health_status = component_keys ->
  exists b1 b2 b3 b4,
    health_status = [("dashboard_ui", b1); ("manager_api", b2);
                     ("indexer_api", b3); ("ssl_validation", b4)].
Proof.
  unfold Py.keys, component_keys.
  destruct health_status as [|[k1 b1] [|[k2 b2] [|[k3 b3] [|[k4 b4] [|? ?]]]]];
    simpl; intros H; try discriminate.
  injection H as -> -> -> ->.
  now exists b1, b2, b3, b4.
Qed.

Ltac four_cases hs H :=
  destruct (four_keys hs H) as (?b & ?b & ?b & ?b & ->);
  repeat match goal with b : bool |- _ => destruct b end.

(** ** Computations that only print *)

(** [emit s lines] is [s] with [lines] printed after what was there. *)
Definition emit (s : state) (lines : list line) : state :=
  {| requests_sent := requests_sent s;
     clock_reads := clock_reads s;
     stdout := (stdout s ++ lines)%list |}.

(** A computation that does nothing to the state but print, and whose
    result and printed lines do not depend on the state. *)
Definition prints_only {A} (c : M A) : Prop :=
  exists (o : outcome A) (lines : list line), forall s, c s = (o, emit s lines).

Lemma emit_nil s : emit s [] = s.
Proof. destruct s; unfold emit; simpl; now rewrite app_nil_r. Qed.

Lemma emit_emit s l1 l2 : emit (emit s l1) l2 = emit s (l1 ++ l2)%list.
Proof. unfold emit; simpl; now rewrite app_assoc. Qed.

Lemma prints_only_ret {A} (a : A) : prints_only (ret a).
Proof. exists (Return a), []. intros s. unfold ret. now rewrite emit_nil. Qed.

Lemma prints_only_raise {A} (e : exn) : prints_only (@raise A e).
Proof. exists (Raise e), []. intros s. unfold raise. now rewrite emit_nil. Qed.

Lemma prints_only_lift {A} (o : outcome A) : prints_only (lift o).
Proof. exists o, []. intros s. unfold lift. now rewrite emit_nil. Qed.

Lemma prints_only_print (l : line) : prints_only (print l).
Proof. now exists (Return tt), [l]. Qed.

Lemma prints_only_bind {A B} (c : M A) (k : A -> M B) :
  prints_only c -> (forall a, prints_only (k a)) -> prints_only (bind c k).
Proof.
  intros (o & l1 & Hc) Hk.
  destruct o as [a|e].
  - destruct (Hk a) as (o2 & l2 & Hka).
    exists o2, (l1 ++ l2)%list. intros s.
    unfold bind. now rewrite Hc, Hka, emit_emit.
  - exists (Raise e), l1. intros s. unfold bind. now rewrite Hc.
Qed.

Lemma prints_only_for_each {A} (xs : list A) (body : A -> M unit) :
  (forall x, prints_only (body x)) -> prints_only (for_each xs body).
Proof.
  intros Hb. induction xs as [|x rest IH]; simpl.
  - apply prints_only_ret.
  - apply prints_only_bind; auto.
Qed.

Lemma prints_only_subscript {V} (d : Py.dict V) (k : string) :
  prints_only (subscript d k).
Proof.
  unfold subscript. destruct (Py.getitem d k).
  - apply prints_only_ret.
  - apply prints_only_raise.
Qed.

(** Solves [prints_only] goals by following the structure of the code. *)
Ltac prints :=
  repeat first
    [ apply prints_only_ret
    | apply prints_only_raise
    | apply prints_only_lift
    | apply prints_only_print
    | apply prints_only_subscript
    | apply prints_only_bind; [| intros ?]
    | apply prints_only_for_each; intros ?
    | match goal with
      | |- prints_only (if ?b then _ else _) => destruct b
      | |- prints_only (let (_, _) := ?p in _) => destruct p
      end ].

Lemma prints_only_recommendations score hs :
  prints_only (print_recommendations score hs).
Proof. unfold print_recommendations, recommend_for, print_str. prints. Qed.

Lemma prints_only_report hs : prints_only (report hs).
Proof.
  unfold report, print_component, final_status, print_str.
  prints. apply prints_only_recommendations.
Qed.

(** What a printing computation does in any state is read off its run on
    the empty state. *)
Lemma prints_only_run {A} (c : M A) :
  prints_only c ->
  forall s, c s = (fst (c initial_state),
                   emit s (stdout (snd (c initial_state)))).
Proof.
  intros (o & lines & H) s. now rewrite !H.
Qed.

(** The lines [report] prints, and the code it returns. *)
Definition report_lines (hs : Py.dict bool) : list line :=
  stdout (snd (report hs initial_state)).

Lemma report_run hs s :
  report hs s = (fst (report hs initial_state), emit s (report_lines hs)).
Proof. apply prints_only_run, prints_only_report. Qed.

Lemma recommendations_run score hs s :
  print_recommendations score hs s
  = (fst (print_recommendations score hs initial_state),
     emit s (stdout (snd (print_recommendations score hs initial_state)))).
Proof. apply prints_only_run, prints_only_recommendations. Qed.

Lemma report_result hs s :
  fst (report hs s) = fst (report hs initial_state).
Proof. now rewrite report_run. Qed.

Lemma report_stdout hs s :
  stdout (snd (report hs s)) = (stdout s ++ report_lines hs)%list.
Proof. now rewrite report_run. Qed.

Lemma report_requests hs s :
  requests_sent (snd (report hs s)) = requests_sent s.
Proof. now rewrite report_run. Qed.

Ltac pick_line := repeat (try (left; reflexivity); right).

(** ** The score *)

(** C1. For every status dictionary with the four declared keys, of which
    [k] are healthy, the score is computed (no exception) and is the
    binary64 number whose exact rational value is [100 * k / n], with [n]
    the number of entries; that value lies between 0 and 100.  The report
    that follows uses this value, computed from the dictionary it is given:
    it prints it in the score line and returns the exit code of its
    verdict. *)
Theorem health_score_exact (health_status : Py.dict bool) :
  Py.keys health_status = component_keys ->
  exists (score : float) (q : Q),
    health_score health_status = Return score /\
    float_value score = Some q /\
    (q == (100 * healthy_count health_status)
          # Z.to_pos (Py.len health_status))%Q /\
    (0 <= q)%Q /\ (q <= 100)%Q /\
    forall s : state,
      fst (report health_status s) = Return (exit_code (classify score)) /\
      In [Str "📊 System Health Score: "; Fixed 1 (Py.Float score);
          Str ("% (" ++ Py.str_of_int (healthy_count health_status) ++ "/"
               ++ Py.str_of_int (Py.len health_status)
               ++ " components healthy)")]
         (stdout (snd (report health_status s))).
Proof.
  intros H.
  four_cases health_status H;
    eexists; eexists;
    (split; [vm_compute; reflexivity|]);
    (split; [vm_compute; reflexivity|]);
    (split; [vm_compute; reflexivity|]);
    (split; [vm_compute; discriminate|]);
    (split; [vm_compute; discriminate|]);
    intros s; rewrite report_result, report_stdout;
    (split; [vm_compute; reflexivity|]);
    apply in_or_app; right; vm_compute; pick_line.
Qed.

Lemma health_score_exact_witness :
  exists (score : float) (q : Q),
    health_score [("dashboard_ui", true); ("manager_api", false);
                  ("indexer_api", true); ("ssl_validation", true)]
      = Return score /\
    float_value score = Some q /\ (q == 75)%Q.
Proof.
  destruct (health_score_exact
              [("dashboard_ui", true); ("manager_api", false);
               ("indexer_api", true); ("ssl_validation", true)] eq_refl)
    as (score & q & Hs & Hv & Hq & _).
  exists score, q. repeat split; try assumption.
  rewrite Hq. vm_compute. reflexivity.
Defined.

(** Why the four keys matter: on a dictionary of three entries with one
    healthy, the two roundings of [(1 / 3) * 100] give a float that is a
    binary fraction just below [100 / 3]. *)
Example score_of_three_is_rounded :
  exists (score : float) (q : Q),
    health_score [("a", true); ("b", false); ("c", false)] = Return score /\
    float_value score = Some q /\ (q < 100 # 3)%Q.
Proof. eexists; eexists. repeat split; vm_compute; reflexivity. Qed.

(** On the empty dictionary the division raises. *)
Example score_of_empty_raises :
  health_score [] = Raise ZeroDivisionError.
Proof. reflexivity. Qed.

(** ** One run of the script in a given world *)

(** General facts on sequencing. *)
Lemma bind_result {A B} (c : M A) (k : A -> M B) s :
  fst (bind c k s)
  = match fst (c s) with
    | Return a => fst (k a (snd (c s)))
    | Raise e => Raise e
    end.
Proof. unfold bind. now destruct (c s) as [[a|e] s']. Qed.

Lemma bind_state {A B} (c : M A) (k : A -> M B) s :
  snd (bind c k s)
  = match fst (c s) with
    | Return a => snd (k a (snd (c s)))
    | Raise e => snd (c s)
    end.
Proof. unfold bind. now destruct (c s) as [[a|e] s']. Qed.

(** The line that opens each block of [main], in the order of the blocks. *)
Definition headers : list line :=
  [[Str "🔍 Checking Dashboard UI..."];
   [Str (Py.nl ++ "🔍 Checking Manager API...")];
   [Str (Py.nl ++ "🔍 Checking Indexer API...")];
   [Str (Py.nl ++ "🔍 Checking SSL Configuration...")]].

Definition is_header (l : line) : bool :=
  match l with
  | [Str text] =>
      String.eqb text "🔍 Checking Dashboard UI..."
      || String.eqb text (Py.nl ++ "🔍 Checking Manager API...")
      || String.eqb text (Py.nl ++ "🔍 Checking Indexer API...")
      || String.eqb text (Py.nl ++ "🔍 Checking SSL Configuration...")
  | _ => false
  end.

(** The block headers a run has printed so far, in order. *)
Definition headers_of (s : state) : list line := filter is_header (stdout s).

Section OneRun.
Variable w : world.

(** The three configured URLs. *)
Definition dashboard_url : string :=
  os_getenv w "WAZUH_DASHBOARD_URL" "https://localhost:443".
Definition manager_api_url : string :=
  os_getenv w "WAZUH_MANAGER_API_URL" "https://localhost:55000".
Definition indexer_url : string :=
  os_getenv w "WAZUH_INDEXER_URL" "https://localhost:9200".

(** The request a probe sends to a URL. *)
Definition probe_request (url : string) : request :=
  {| req_url := url; req_timeout := default_timeout; req_verify := false |}.

(** The requests of a complete run, in order. *)
Definition expected_requests : list request :=
  [probe_request dashboard_url; probe_request manager_api_url;
   probe_request indexer_url].

(** What the world answers to the first, second and third request. *)
Definition dashboard_outcome : outcome response :=
  http_get w 0 (probe_request dashboard_url).
Definition manager_outcome : outcome response :=
  http_get w 1 (probe_request manager_api_url).
Definition indexer_outcome : outcome response :=
  http_get w 2 (probe_request indexer_url).

(** A probe succeeds when a response came back and its status is 200. *)
Definition responded_200 (o : outcome response) : bool :=
  match o with
  | Return r => status_code r =? 200
  | Raise _ => false
  end.

(** The exceptions that each probe turns into a result. *)
Definition caught_by_ui (e : exn) : bool := is_Exception e.
Definition caught_by_endpoint (e : exn) : bool :=
  is_SSLError e || is_ConnectionError e || is_Timeout e || is_Exception e.

(** The outcome of a probe block: the flag it records, or the exception
    that leaves it. *)
Definition probe_flag (caught : exn -> bool) (o : outcome response)
  : outcome bool :=
  match o with
  | Return r => Return (status_code r =? 200)
  | Raise e => if caught e then Return false else Raise e
  end.

(** The outcome of the HTTPS block: whether the three schemes are all
    ["https"], or the first exception of [urlparse]. *)
Definition https_flag : outcome bool :=
  match urlparse_scheme w dashboard_url with
  | Raise e => Raise e
  | Return s1 =>
      match urlparse_scheme w manager_api_url with
      | Raise e => Raise e
      | Return s2 =>
          match urlparse_scheme w indexer_url with
          | Raise e => Raise e
          | Return s3 =>
              Return (String.eqb s1 "https" && String.eqb s2 "https"
                      && String.eqb s3 "https")
          end
      end
  end.

(** [j] requests have been sent: the first [j] of the expected ones. *)
Definition sent (j : nat) (s : state) : Prop :=
  requests_sent s = firstn j expected_requests.

Lemma load_config_eq :
  load_config w = [("dashboard_url", dashboard_url);
                   ("manager_api_url", manager_api_url);
                   ("indexer_url", indexer_url)].
Proof. reflexivity. Qed.

(** Recording a flag: the assignment of [True] when it is set. *)
Definition record (hs : Py.dict bool) (key : string) (flag : bool)
  : Py.dict bool :=
  if flag then Py.setitem hs key true else hs.

Definition then_record (hs : Py.dict bool) (key : string)
           (flag : outcome bool) : outcome (Py.dict bool) :=
  match flag with
  | Return b => Return (record hs key b)
  | Raise e => Raise e
  end.

Lemma preamble_run s :
  fst (preamble w s) = Return tt /\
  requests_sent (snd (preamble w s)) = requests_sent s /\
  headers_of (snd (preamble w s)) = headers_of s.
Proof.
  unfold preamble, print_str, bind, print, ret, headers_of.
  destruct (path_exists w ".env"); cbn [fst snd negb requests_sent stdout];
    rewrite ?filter_app, ?app_nil_r; repeat split;
    cbn; now rewrite ?app_nil_r.
Qed.

(** Closes the goals of a block lemma once the outcome of the request is
    known: the result, the requests sent and the headers printed. *)
Ltac close_block :=
  cbn [fst snd requests_sent stdout app]; unfold headers_of;
  cbn [fst snd requests_sent stdout app];
  rewrite ?filter_app; repeat split;
  try reflexivity;
  rewrite <- ?app_assoc; f_equal; cbv; reflexivity.

Lemma test_dashboard_ui_run hs s :
  sent 0 s ->
  fst (test_dashboard_ui w (load_config w) hs s)
  = then_record hs "dashboard_ui" (probe_flag caught_by_ui dashboard_outcome)
  /\ sent 1 (snd (test_dashboard_ui w (load_config w) hs s))
  /\ headers_of (snd (test_dashboard_ui w (load_config w) hs s))
     = (headers_of s ++ firstn 1 headers)%list.
Proof.
  unfold sent. intros Hs.
  unfold test_dashboard_ui, check_ui_accessibility, requests_get, try_except,
    print_str, subscript, bind, print, ret, dashboard_outcome, caught_by_ui,
    then_record, record, probe_flag.
  rewrite load_config_eq. cbn [Py.getitem String.eqb Ascii.eqb Bool.eqb].
  cbn [requests_sent stdout clock_reads]. rewrite Hs.
  cbn [firstn List.length app].
  fold (probe_request dashboard_url).
  destruct (http_get w 0 (probe_request dashboard_url)) as [r|e].
  - destruct (status_code r =? 200); close_block.
  - destruct (is_Exception e); close_block.
Qed.

Ltac run_endpoint_block Hs url :=
  unfold check_endpoint, requests_get, time, try_except,
    print_str, subscript, bind, print, ret, caught_by_endpoint,
    then_record, record, probe_flag;
  rewrite load_config_eq; cbn [Py.getitem String.eqb Ascii.eqb Bool.eqb];
  cbn [requests_sent stdout clock_reads]; rewrite Hs;
  cbn [firstn List.length app expected_requests];
  fold (probe_request url);
  match goal with
  | |- context [http_get w ?n (probe_request url)] =>
      destruct (http_get w n (probe_request url)) as [?r|?e]
  end;
  [ match goal with
    | |- context [status_code ?r =? 200] => destruct (status_code r =? 200)
    end; close_block
  | match goal with
    | e : exn |- _ =>
        destruct (is_SSLError e); [close_block|];
        destruct (is_ConnectionError e); [close_block|];
        destruct (is_Timeout e); [close_block|];
        destruct (is_Exception e); close_block
    end ].

Lemma test_manager_api_run hs s :
  sent 1 s ->
  fst (test_manager_api w (load_config w) hs s)
  = then_record hs "manager_api"
      (probe_flag caught_by_endpoint manager_outcome)
  /\ sent 2 (snd (test_manager_api w (load_config w) hs s))
  /\ headers_of (snd (test_manager_api w (load_config w) hs s))
     = (headers_of s ++ firstn 1 (skipn 1 headers))%list.
Proof.
  unfold sent. intros Hs. unfold test_manager_api, manager_outcome.
  run_endpoint_block Hs manager_api_url.
Qed.

Lemma test_indexer_api_run hs s :
  sent 2 s ->
  fst (test_indexer_api w (load_config w) hs s)
  = then_record hs "indexer_api"
      (probe_flag caught_by_endpoint indexer_outcome)
  /\ sent 3 (snd (test_indexer_api w (load_config w) hs s))
  /\ headers_of (snd (test_indexer_api w (load_config w) hs s))
     = (headers_of s ++ firstn 1 (skipn 2 headers))%list.
Proof.
  unfold sent. intros Hs. unfold test_indexer_api, indexer_outcome.
  run_endpoint_block Hs indexer_url.
Qed.

Lemma test_ssl_configuration_run hs s :
  fst (test_ssl_configuration w (load_config w) hs s)
  = then_record hs "ssl_validation" https_flag
  /\ requests_sent (snd (test_ssl_configuration w (load_config w) hs s))
     = requests_sent s
  /\ headers_of (snd (test_ssl_configuration w (load_config w) hs s))
     = (headers_of s ++ firstn 1 (skipn 3 headers))%list.
Proof.
  unfold test_ssl_configuration, ssl_loop, scheme_of, lift, https_flag,
    print_str, subscript, bind, print, ret, then_record, record.
  rewrite load_config_eq. cbn [Py.getitem String.eqb Ascii.eqb Bool.eqb].
  destruct (urlparse_scheme w dashboard_url) as [s1|e]; [|close_block].
  destruct (String.eqb s1 "https");
    (destruct (urlparse_scheme w manager_api_url) as [s2|e]; [|close_block]);
    (destruct (String.eqb s2 "https");
     (destruct (urlparse_scheme w indexer_url) as [s3|e]; [|close_block]);
     destruct (String.eqb s3 "https"); close_block).
Qed.

(** The flag of each block, under the key it is recorded at, in the order
    of the blocks. *)
Definition flags : list (string * outcome bool) :=
  [("dashboard_ui", probe_flag caught_by_ui dashboard_outcome);
   ("manager_api", probe_flag caught_by_endpoint manager_outcome);
   ("indexer_api", probe_flag caught_by_endpoint indexer_outcome);
   ("ssl_validation", https_flag)].

(** Recording flags one after the other, until one is an exception. *)
Fixpoint record_all (fs : list (string * outcome bool)) (hs : Py.dict bool)
  : outcome (Py.dict bool) :=
  match fs with
  | [] => Return hs
  | (key, Return b) :: rest => record_all rest (record hs key b)
  | (_, Raise e) :: _ => Raise e
  end.

(** How many blocks are entered: all of them up to the first whose flag is
    an exception, that one included. *)
Fixpoint started (fs : list (string * outcome bool)) : nat :=
  match fs with
  | [] => 0
  | (_, Return _) :: rest => S (started rest)
  | (_, Raise _) :: _ => 1
  end.

(** [health_status] after the first [n] blocks, and how many of these were
    entered. *)
Definition status_upto (n : nat) : outcome (Py.dict bool) :=
  record_all (firstn n flags) initial_health_status.

Definition blocks_started (n : nat) : nat := started (firstn n flags).

(** [main] is its four blocks followed by the report. *)
Lemma main_blocks s : main w s = bind (main_upto w 4) report s.
Proof.
  unfold main, main_upto. cbn [firstn blocks run_blocks]. unfold bind, ret.
  repeat (match goal with
          | |- context [match ?c ?st with _ => _ end] =>
              lazymatch c with
              | report _ => fail
              | _ => destruct (c st) as [[?|?] ?]
              end
          end; cbv beta iota);
    reflexivity.
Qed.

(** A run cut after [n] blocks: its result, the requests it sent and the
    block headers it printed. *)
Lemma main_upto_run (n : nat) :
  fst (main_upto w n initial_state) = status_upto n /\
  requests_sent (snd (main_upto w n initial_state))
  = firstn (blocks_started n) expected_requests /\
  headers_of (snd (main_upto w n initial_state))
  = firstn (blocks_started n) headers.
Proof.
  unfold main_upto, status_upto, blocks_started, flags.
  rewrite bind_result, bind_state.
  destruct (preamble_run initial_state) as (-> & Hp0 & Hq0).
  set (s0 := snd (preamble w initial_state)) in *.
  assert (H0 : sent 0 s0) by exact Hp0.
  assert (G0 : headers_of s0 = []) by exact Hq0.
  clearbody s0. clear Hp0 Hq0.
  destruct n as [|n]; cbn [firstn blocks run_blocks record_all started].
  { repeat split; auto. }
  rewrite bind_result, bind_state.
  destruct (test_dashboard_ui_run initial_health_status H0) as (-> & H1 & G1).
  rewrite G0 in G1.
  set (s1 := snd (test_dashboard_ui w (load_config w) initial_health_status s0))
    in *. clearbody s1.
  destruct (probe_flag caught_by_ui dashboard_outcome) as [b1|e];
    cbn [then_record]; [|repeat split; auto].
  destruct n as [|n]; cbn [firstn run_blocks record_all started].
  { repeat split; auto. }
  rewrite bind_result, bind_state.
  destruct (test_manager_api_run (record initial_health_status "dashboard_ui" b1)
              H1) as (-> & H2 & G2).
  rewrite G1 in G2.
  set (s2 := snd (test_manager_api w (load_config w) _ s1)) in *. clearbody s2.
  destruct (probe_flag caught_by_endpoint manager_outcome) as [b2|e];
    cbn [then_record]; [|repeat split; auto].
  destruct n as [|n]; cbn [firstn run_blocks record_all started].
  { repeat split; auto. }
  rewrite bind_result, bind_state.
  match goal with
  | |- context [test_indexer_api w (load_config w) ?hs s2] =>
      destruct (test_indexer_api_run hs H2) as (-> & H3 & G3);
      set (s3 := snd (test_indexer_api w (load_config w) hs s2)) in *
  end.
  rewrite G2 in G3. clearbody s3.
  destruct (probe_flag caught_by_endpoint indexer_outcome) as [b3|e];
    cbn [then_record]; [|repeat split; auto].
  destruct n as [|n]; cbn [firstn run_blocks record_all started].
  { repeat split; auto. }
  rewrite bind_result, bind_state.
  match goal with
  | |- context [test_ssl_configuration w (load_config w) ?hs s3] =>
      destruct (test_ssl_configuration_run hs s3) as (-> & H4 & G4);
      set (s4 := snd (test_ssl_configuration w (load_config w) hs s3)) in *
  end.
  rewrite G3 in G4. rewrite H3 in H4. clearbody s4.
  replace (firstn n []) with (@nil (Py.dict string -> Py.dict bool
                                     -> M (Py.dict bool)))
    by now destruct n.
  replace (firstn n []) with (@nil (string * outcome bool)) by now destruct n.
  destruct https_flag as [b4|e];
    cbn [then_record run_blocks record_all started]; repeat split; auto.
Qed.

(** Whether the three schemes were read and are all ["https"]. *)
Definition https_ok : bool :=
  match https_flag with
  | Return b => b
  | Raise _ => false
  end.

(** The dictionary after [n] blocks, entry by entry: an entry is set once
    its block has run and its probe has succeeded. *)
Definition status_at (n : nat) : Py.dict bool :=
  [("dashboard_ui", (0 <? n)%nat && responded_200 dashboard_outcome);
   ("manager_api", (1 <? n)%nat && responded_200 manager_outcome);
   ("indexer_api", (2 <? n)%nat && responded_200 indexer_outcome);
   ("ssl_validation", (3 <? n)%nat && https_ok)].

(** No exception leaves a probe, and [urlparse] accepts the three URLs. *)
Definition settled (caught : exn -> bool) (o : outcome response) : bool :=
  match o with
  | Return _ => true
  | Raise e => caught e
  end.

Definition parses (url : string) : bool :=
  match urlparse_scheme w url with
  | Return _ => true
  | Raise _ => false
  end.

Definition no_escape : bool :=
  settled caught_by_ui dashboard_outcome
  && settled caught_by_endpoint manager_outcome
  && settled caught_by_endpoint indexer_outcome
  && parses dashboard_url && parses manager_api_url && parses indexer_url.

Lemma probe_flag_returns caught o b :
  probe_flag caught o = Return b ->
  b = responded_200 o /\ settled caught o = true.
Proof.
  unfold probe_flag, responded_200, settled.
  destruct o as [r|e]; [|destruct (caught e)]; intros H;
    inversion H; auto.
Qed.

Lemma probe_flag_settled caught o :
  settled caught o = true -> probe_flag caught o = Return (responded_200 o).
Proof.
  unfold probe_flag, responded_200, settled.
  destruct o as [r|e]; [reflexivity|]. now intros ->.
Qed.

Lemma https_flag_parses :
  (parses dashboard_url && parses manager_api_url && parses indexer_url) = true
  <-> https_flag = Return https_ok.
Proof.
  unfold https_ok, https_flag, parses.
  destruct (urlparse_scheme w dashboard_url);
    destruct (urlparse_scheme w manager_api_url);
    destruct (urlparse_scheme w indexer_url); cbn; split; intros H;
    try reflexivity; try discriminate.
Qed.

(** When a run cut after [n] blocks returns, its dictionary is [status_at n]. *)
Lemma status_upto_returns n hs :
  status_upto n = Return hs -> hs = status_at n.
Proof.
  unfold status_upto, status_at, flags.
  destruct n as [|[|[|[|n]]]]; cbn [firstn record_all Nat.ltb Nat.leb andb].
  - now intros [= <-].
  - destruct (probe_flag caught_by_ui dashboard_outcome) as [b1|] eqn:E1;
      [|discriminate].
    apply probe_flag_returns in E1 as [<- _]. intros [= <-].
    now destruct b1.
  - destruct (probe_flag caught_by_ui dashboard_outcome) as [b1|] eqn:E1;
      [|discriminate].
    destruct (probe_flag caught_by_endpoint manager_outcome) as [b2|] eqn:E2;
      [|discriminate].
    apply probe_flag_returns in E1 as [<- _].
    apply probe_flag_returns in E2 as [<- _]. intros [= <-].
    now destruct b1, b2.
  - destruct (probe_flag caught_by_ui dashboard_outcome) as [b1|] eqn:E1;
      [|discriminate].
    destruct (probe_flag caught_by_endpoint manager_outcome) as [b2|] eqn:E2;
      [|discriminate].
    destruct (probe_flag caught_by_endpoint indexer_outcome) as [b3|] eqn:E3;
      [|discriminate].
    apply probe_flag_returns in E1 as [<- _].
    apply probe_flag_returns in E2 as [<- _].
    apply probe_flag_returns in E3 as [<- _]. intros [= <-].
    now destruct b1, b2, b3.
  - replace (firstn n []) with (@nil (string * outcome bool)) by now destruct n.
    destruct (probe_flag caught_by_ui dashboard_outcome) as [b1|] eqn:E1;
      [|discriminate].
    destruct (probe_flag caught_by_endpoint manager_outcome) as [b2|] eqn:E2;
      [|discriminate].
    destruct (probe_flag caught_by_endpoint indexer_outcome) as [b3|] eqn:E3;
      [|discriminate].
    apply probe_flag_returns in E1 as [<- _].
    apply probe_flag_returns in E2 as [<- _].
    apply probe_flag_returns in E3 as [<- _].
    unfold https_ok. destruct https_flag as [b4|]; [|discriminate].
    intros [= <-]. now destruct b1, b2, b3, b4.
Qed.

(** A run returns exactly when no exception escapes. *)
Lemma status_upto_4_returns_iff :
  no_escape = true <-> status_upto 4 = Return (status_at 4).
Proof.
  unfold no_escape. split.
  - rewrite !andb_true_iff. intros [[[[[H1 H2] H3] P1] P2] P3].
    assert (P : https_flag = Return https_ok).
    { apply https_flag_parses. now rewrite P1, P2, P3. }
    unfold status_upto, flags. cbn [firstn record_all].
    rewrite (probe_flag_settled _ _ H1), (probe_flag_settled _ _ H2),
      (probe_flag_settled _ _ H3), P.
    unfold status_at. cbn [Nat.ltb Nat.leb andb].
    destruct (responded_200 dashboard_outcome),
      (responded_200 manager_outcome), (responded_200 indexer_outcome),
      https_ok; reflexivity.
  - unfold status_upto, flags. cbn [firstn record_all].
    destruct (probe_flag caught_by_ui dashboard_outcome) as [b1|] eqn:E1;
      [|discriminate].
    destruct (probe_flag caught_by_endpoint manager_outcome) as [b2|] eqn:E2;
      [|discriminate].
    destruct (probe_flag caught_by_endpoint indexer_outcome) as [b3|] eqn:E3;
      [|discriminate].
    apply probe_flag_returns in E1 as [_ ->].
    apply probe_flag_returns in E2 as [_ ->].
    apply probe_flag_returns in E3 as [_ ->].
    destruct https_flag as [b4|] eqn:E4; [|discriminate]. intros _.
    assert (P : https_flag = Return https_ok)
      by (unfold https_ok; now rewrite E4).
    apply https_flag_parses in P. exact P.
Qed.

Lemma status_at_keys n : Py.keys (status_at n) = component_keys.
Proof. reflexivity. Qed.

Lemma report_no_header hs :
  Py.keys hs = component_keys -> filter is_header (report_lines hs) = [].
Proof. intros H. four_cases hs H; vm_compute; reflexivity. Qed.

(** A whole run of [main]: its result, the requests it sent, the block
    headers it printed, and what it printed last. *)
Lemma main_run :
  fst (main w initial_state)
  = match status_upto 4 with
    | Return hs => fst (report hs initial_state)
    | Raise e => Raise e
    end /\
  requests_sent (snd (main w initial_state))
  = firstn (blocks_started 4) expected_requests /\
  headers_of (snd (main w initial_state))
  = firstn (blocks_started 4) headers /\
  forall hs, status_upto 4 = Return hs ->
             stdout (snd (main w initial_state))
             = (stdout (snd (main_upto w 4 initial_state))
                ++ report_lines hs)%list.
Proof.
  rewrite main_blocks, bind_result, bind_state.
  destruct (main_upto_run 4) as (R & Q & G). rewrite R.
  destruct (status_upto 4) as [hs|e] eqn:E.
  - rewrite report_result, report_requests. unfold headers_of in *.
    rewrite report_stdout, filter_app, G.
    rewrite (report_no_header hs), app_nil_r.
    + repeat split; auto. now intros ? [= <-].
    + rewrite (status_upto_returns 4 E). apply status_at_keys.
  - repeat split; auto. discriminate.
Qed.

End OneRun.

(** ** Worlds used as examples *)

Module Examples.

(** Reads ["https"] or ["http"] off the front of a URL. *)
Definition scheme (url : string) : outcome string :=
  Return (if String.prefix "https:" url then "https"
          else if String.prefix "http:" url then "http"
          else "").

Definition connection_refused : exn :=
  {| exn_class := "ConnectionError";
     is_SSLError := false; is_ConnectionError := true; is_Timeout := false;
     is_Exception := true; is_KeyboardInterrupt := false;
     exn_str := "Connection refused" |}.

Definition read_timeout : exn :=
  {| exn_class := "ReadTimeout";
     is_SSLError := false; is_ConnectionError := false; is_Timeout := true;
     is_Exception := true; is_KeyboardInterrupt := false;
     exn_str := "Read timed out. (read timeout=10)" |}.

(** An exception whose [str] is empty, as [Exception()] has. *)
Definition silent : exn :=
  {| exn_class := "Exception";
     is_SSLError := false; is_ConnectionError := false; is_Timeout := false;
     is_Exception := true; is_KeyboardInterrupt := false;
     exn_str := "" |}.

Definition keyboard_interrupt : exn :=
  {| exn_class := "KeyboardInterrupt";
     is_SSLError := false; is_ConnectionError := false; is_Timeout := false;
     is_Exception := false; is_KeyboardInterrupt := true;
     exn_str := "" |}.

(** Default URLs; every request answered the same way. *)
Definition answering (o : outcome response) : world :=
  {| getenv := fun _ => None;
     path_exists := fun _ => true;
     http_get := fun _ _ => o;
     time_time := fun n => PrimFloat.of_uint63 (Uint63.of_Z (Z.of_nat n));
     urlparse_scheme := scheme |}.

(** The dashboard configured over plain HTTP; every request refused. *)
Definition all_down : world :=
  {| getenv := fun name =>
       if String.eqb name "WAZUH_DASHBOARD_URL"
       then Some "http://wazuh.example:5601" else None;
     path_exists := fun _ => true;
     http_get := fun _ _ => Raise connection_refused;
     time_time := fun n => PrimFloat.of_uint63 (Uint63.of_Z (Z.of_nat n));
     urlparse_scheme := scheme |}.

(** Dashboard up, manager answering 503, indexer timing out. *)
Definition mixed : world :=
  {| getenv := fun _ => None;
     path_exists := fun _ => false;
     http_get := fun n _ =>
       match n with
       | O => Return {| status_code := 200 |}
       | S O => Return {| status_code := 503 |}
       | _ => Raise read_timeout
       end;
     time_time := fun n => PrimFloat.of_uint63 (Uint63.of_Z (Z.of_nat n));
     urlparse_scheme := scheme |}.

(** What [urlparse] raises on a URL with an unclosed bracket. *)
Definition value_error : exn :=
  {| exn_class := "ValueError";
     is_SSLError := false; is_ConnectionError := false; is_Timeout := false;
     is_Exception := true; is_KeyboardInterrupt := false;
     exn_str := "Invalid IPv6 URL" |}.

(** What [requests] raises on a URL it cannot parse: a [RequestException]
    that is none of the three kinds [check_endpoint] names. *)
Definition invalid_url : exn :=
  {| exn_class := "InvalidURL";
     is_SSLError := false; is_ConnectionError := false; is_Timeout := false;
     is_Exception := true; is_KeyboardInterrupt := false;
     exn_str := "Failed to parse: https://[bad" |}.

(** The dashboard configured with a URL that has an unclosed bracket:
    [requests] rejects that URL, every other request is refused, and
    [urlparse] raises on that URL. *)
Definition bad_url : world :=
  {| getenv := fun name =>
       if String.eqb name "WAZUH_DASHBOARD_URL"
       then Some "https://[bad" else None;
     path_exists := fun _ => true;
     http_get := fun _ r =>
       if String.eqb (req_url r) "https://[bad"
       then Raise invalid_url else Raise connection_refused;
     time_time := fun n => PrimFloat.of_uint63 (Uint63.of_Z (Z.of_nat n));
     urlparse_scheme := fun url =>
       if String.eqb url "https://[bad"
       then Raise value_error else scheme url |}.

End Examples.

(** ** The probes *)

(** C9. When [requests.get] gives a response, each reachability probe reports
    healthy exactly when the status code is 200, returns that status code,
    and gives the detail [None] for 200 and ["HTTP <code>"] otherwise.  When
    it gives no response, a probe that returns reports unhealthy. *)
Theorem probe_healthy_iff_200 (w : world) (url name : string) (timeout : Z)
        (s : state) :
  match http_get w (List.length (requests_sent s))
                 {| req_url := url; req_timeout := timeout;
                    req_verify := false |} with
  | Return r =>
      let healthy := status_code r =? 200 in
      let detail :=
        if healthy then None
        else Some ("HTTP " ++ Py.str_of_int (status_code r)) in
      (healthy = true <-> status_code r = 200) /\
      (exists response_time,
          fst (check_endpoint w url name timeout s)
          = Return (healthy, response_time, status_code r, detail)) /\
      fst (check_ui_accessibility w url timeout s)
      = Return (healthy, status_code r, detail)
  | Raise _ =>
      (forall accessible response_time status detail,
          fst (check_endpoint w url name timeout s)
          = Return (accessible, response_time, status, detail) ->
          accessible = false) /\
      (forall accessible status detail,
          fst (check_ui_accessibility w url timeout s)
          = Return (accessible, status, detail) ->
          accessible = false)
  end.
Proof.
  unfold check_endpoint, check_ui_accessibility, requests_get, time,
    try_except, bind, ret.
  cbn [requests_sent clock_reads stdout].
  destruct (http_get w _ _) as [r|e]; cbn zeta.
  - split; [apply Z.eqb_eq|].
    destruct (status_code r =? 200); cbn [fst]; split; eauto.
  - split.
    + intros a rt c d.
      destruct (is_SSLError e); [cbn; now intros [= <- _ _ _]|].
      destruct (is_ConnectionError e); [cbn; now intros [= <- _ _ _]|].
      destruct (is_Timeout e); [cbn; now intros [= <- _ _ _]|].
      destruct (is_Exception e); [cbn; now intros [= <- _ _ _]|].
      cbn. discriminate.
    + intros a c d.
      destruct (is_Exception e); [cbn; now intros [= <- _ _]|].
      cbn. discriminate.
Qed.

Example probe_404 :
  fst (check_ui_accessibility
         (Examples.answering (Return {| status_code := 404 |}))
         "https://localhost:443" 10 initial_state)
  = Return (false, 404, Some "HTTP 404").
Proof. reflexivity. Qed.

(** On a dictionary with the four declared keys the report returns, with
    the exit code of the verdict of its score. *)
Lemma report_returns (hs : Py.dict bool) :
  Py.keys hs = component_keys ->
  exists score,
    health_score hs = Return score /\
    fst (report hs initial_state) = Return (exit_code (classify score)).
Proof.
  intros H. four_cases hs H; eexists; split; vm_compute; reflexivity.
Qed.

(** When no exception escapes the probes, [main] returns. *)
Lemma main_returns (w : world) :
  no_escape w = true ->
  exists score,
    health_score (status_at w 4) = Return score /\
    fst (main w initial_state) = Return (exit_code (classify score)).
Proof.
  intros H. apply status_upto_4_returns_iff in H.
  destruct (main_run w) as (R & _). rewrite R, H.
  apply report_returns, status_at_keys.
Qed.

(** The label [check_endpoint] puts before the description of an
    exception, by the first [except] clause that matches. *)
Definition endpoint_label (e : exn) : string :=
  if is_SSLError e then "SSL Error: "
  else if is_ConnectionError e then "Connection Error: "
  else if is_Timeout e then "Timeout: "
  else "Error: ".

(** C3, as the code has it.  When [requests.get] raises an exception that
    is an instance of [Exception] (a timeout included), neither probe
    raises: each returns an unhealthy result with status code 0.  The
    detail of [check_endpoint] is the description of the exception after a
    label, so it is never empty; the detail of [check_ui_accessibility] is
    the description itself.  When no exception other than these reaches a
    probe, [main] returns an exit code: the failure does not reach its
    caller. *)
Theorem probe_failure_absorbed (w : world) (url name : string) (timeout : Z)
        (s : state) (e : exn) :
  http_get w (List.length (requests_sent s))
           {| req_url := url; req_timeout := timeout; req_verify := false |}
  = Raise e ->
  is_Exception e = true ->
  fst (check_endpoint w url name timeout s)
  = Return (false, Py.Int 0, 0, Some (endpoint_label e ++ exn_str e)) /\
  endpoint_label e ++ exn_str e <> "" /\
  fst (check_ui_accessibility w url timeout s)
  = Return (false, 0, Some (exn_str e)) /\
  (no_escape w = true ->
   exists code, fst (main w initial_state) = Return code).
Proof.
  intros H He.
  unfold check_endpoint, check_ui_accessibility, requests_get, time,
    try_except, bind, ret, endpoint_label.
  cbn [requests_sent clock_reads stdout]. rewrite H, He.
  repeat split.
  - destruct (is_SSLError e); [reflexivity|].
    destruct (is_ConnectionError e); [reflexivity|].
    destruct (is_Timeout e); reflexivity.
  - destruct (is_SSLError e); [discriminate|].
    destruct (is_ConnectionError e); [discriminate|].
    destruct (is_Timeout e); discriminate.
  - intros Hn. destruct (main_returns w Hn) as (score & _ & Hm). eauto.
Qed.

Lemma probe_failure_absorbed_witness :
  fst (check_endpoint Examples.all_down "https://localhost:55000"
                      "Manager API" 10 initial_state)
  = Return (false, Py.Int 0, 0, Some "Connection Error: Connection refused")
  /\ fst (check_ui_accessibility Examples.all_down "https://localhost:55000"
                                 10 initial_state)
     = Return (false, 0, Some "Connection refused").
Proof.
  destruct (probe_failure_absorbed Examples.all_down "https://localhost:55000"
              "Manager API" 10 initial_state (e := Examples.connection_refused)
              eq_refl eq_refl) as (H1 & _ & H2 & _).
  split; [exact H1 | exact H2].
Defined.

(** C3 as the specification states it fails twice.  An exception whose
    description is empty gives [check_ui_accessibility] an empty detail; an
    exception that is not an instance of [Exception], such as
    [KeyboardInterrupt], is raised again by [check_endpoint]. *)
Lemma probe_detail_can_be_empty :
  fst (check_ui_accessibility (Examples.answering (Raise Examples.silent))
                              "https://localhost:443" 10 initial_state)
  = Return (false, 0, Some "")
  /\ fst (check_endpoint
            (Examples.answering (Raise Examples.keyboard_interrupt))
            "https://localhost:55000" "Manager API" 10 initial_state)
     = Raise Examples.keyboard_interrupt.
Proof. split; reflexivity. Qed.

(** ** Recommendations *)

(** The hint lines of one entry: none when it is healthy. *)
Definition hint_lines (item : string * bool) : list line :=
  if snd item then [] else map (fun text => [Str text]) (hints (fst item)).

(** C5. On a dictionary with the four declared keys the recommendations are
    computed (no exception); they are the hints of the entries that are not
    healthy, entry by entry in the order of the dictionary, each entry
    giving the hints of its own key; and they are empty exactly when every
    entry is healthy.  The block of [main] prints nothing when they are
    empty, and otherwise its header followed by them. *)
Theorem recommend_empty_iff_all_healthy (health_status : Py.dict bool) :
  Py.keys health_status = component_keys ->
  exists lines score,
    recommend health_status = Return lines /\
    lines = flat_map hint_lines (Py.items health_status) /\
    (lines = [] <->
     forall component status,
       In (component, status) (Py.items health_status) -> status = true) /\
    health_score health_status = Return score /\
    forall s,
      stdout (snd (print_recommendations score health_status s))
      = (stdout s
         ++ match lines with
            | [] => []
            | _ => [Str recommendations_header] :: lines
            end)%list.
Proof.
  intros H.
  four_cases health_status H; eexists; eexists;
    (split; [vm_compute; reflexivity|]);
    (split; [vm_compute; reflexivity|]);
    (split;
     [split; intros Hl;
      [first [ discriminate Hl
             | intros c st [E|[E|[E|[E|[]]]]]; now inversion E ]
      | first [ reflexivity
              | exfalso;
                assert (F : false = true) by (eapply Hl; cbn; eauto 6);
                discriminate F ] ]|]);
    (split; [vm_compute; reflexivity|]);
    intros s; rewrite recommendations_run; cbn [snd]; unfold emit;
    cbn [stdout]; f_equal; vm_compute; reflexivity.
Qed.

Lemma recommend_empty_iff_all_healthy_witness :
  recommend [("dashboard_ui", false); ("manager_api", true);
             ("indexer_api", true); ("ssl_validation", true)]
  = Return
      [[Str "  - Check dashboard service status and network connectivity"];
       [Str "  - Verify dashboard is running on the expected port"]].
Proof.
  destruct (recommend_empty_iff_all_healthy
              [("dashboard_ui", false); ("manager_api", true);
               ("indexer_api", true); ("ssl_validation", true)] eq_refl)
    as (lines & score & -> & -> & _).
  reflexivity.
Defined.

(** ** Whole runs *)

(** A run is the pair of its result and its final state. *)
Lemma run_pair {A} (c : M A) (s : state) : c s = (fst (c s), snd (c s)).
Proof. now destruct (c s). Qed.

(** When [main] returns, the process exits with the code it returned. *)
Lemma script_exit (w : world) (code : Z) :
  fst (main w initial_state) = Return code ->
  script w initial_state = (Exit code, snd (main w initial_state)).
Proof.
  unfold script. destruct (main w initial_state) as [[c|e] s']; cbn.
  - now intros [= ->].
  - discriminate.
Qed.

(** C4.  When every probe fails and no exception escapes (no response with
    status 200, not all three schemes ["https"], every exception of
    [requests.get] caught by its probe, and [urlparse] accepting the three
    URLs), the run goes to its end: the four entries are unhealthy, the
    score is the float 0, whose verdict is unhealthy, [main] returns 2 and
    the process exits with 2, and the recommendations are the eight hints
    of the four components, in the order of the components.  The run ends
    by printing the score line, the four components, the recommendations
    under their header and the verdict. *)
Theorem total_failure_completes (w : world) :
  no_escape w = true ->
  responded_200 (dashboard_outcome w) = false ->
  responded_200 (manager_outcome w) = false ->
  responded_200 (indexer_outcome w) = false ->
  https_ok w = false ->
  exists s',
    main w initial_state = (Return 2, s') /\
    script w initial_state = (Exit 2, s') /\
    fst (main_upto w 4 initial_state) = Return initial_health_status /\
    health_score initial_health_status = Return 0%float /\
    float_value 0%float = Some 0%Q /\
    classify 0%float = Unhealthy /\
    exit_code Unhealthy = 2 /\
    recommend initial_health_status
    = Return
        [[Str "  - Check dashboard service status and network connectivity"];
         [Str "  - Verify dashboard is running on the expected port"];
         [Str "  - Verify manager service is running"];
         [Str "  - Check manager API configuration and firewall rules"];
         [Str "  - Check indexer service status"];
         [Str "  - Verify indexer cluster health"];
         [Str "  - Ensure all endpoints use HTTPS"];
         [Str "  - Check SSL certificate configuration"]] /\
    exists earlier,
      stdout s'
      = (earlier
         ++ [[Str (Py.nl ++ Py.str_mul "=" 50)];
             [Str "📊 System Health Score: "; Fixed 1 (Py.Float 0);
              Str "% (0/4 components healthy)"];
             [Str (Py.nl ++ "📋 Component Status:")];
             [Str "  ❌ Dashboard Ui: Unhealthy"];
             [Str "  ❌ Manager Api: Unhealthy"];
             [Str "  ❌ Indexer Api: Unhealthy"];
             [Str "  ❌ Ssl Validation: Unhealthy"];
             [Str (Py.nl ++ "🔧 Recommendations:")];
             [Str "  - Check dashboard service status and network connectivity"];
             [Str "  - Verify dashboard is running on the expected port"];
             [Str "  - Verify manager service is running"];
             [Str "  - Check manager API configuration and firewall rules"];
             [Str "  - Check indexer service status"];
             [Str "  - Verify indexer cluster health"];
             [Str "  - Ensure all endpoints use HTTPS"];
             [Str "  - Check SSL certificate configuration"];
             [Str (Py.nl ++ "❌ System is unhealthy (");
              Fixed 1 (Py.Float 0); Str "%)"]])%list.
Proof.
  intros Hn H1 H2 H3 H4.
  assert (Hs : status_upto w 4 = Return initial_health_status).
  { apply status_upto_4_returns_iff in Hn. rewrite Hn.
    unfold status_at. now rewrite H1, H2, H3, H4. }
  destruct (main_run w) as (R & _ & _ & O). rewrite Hs in R.
  assert (Hm : fst (main w initial_state) = Return 2)
    by (rewrite R; vm_compute; reflexivity).
  exists (snd (main w initial_state)).
  split; [rewrite (run_pair (main w)); now rewrite Hm|].
  split; [now apply script_exit|].
  split; [destruct (main_upto_run w 4) as (-> & _); exact Hs|].
  repeat (split; [vm_compute; reflexivity|]).
  exists (stdout (snd (main_upto w 4 initial_state))).
  rewrite (O _ Hs). f_equal; try (vm_compute; reflexivity).
Qed.

Lemma total_failure_completes_witness :
  fst (main Examples.all_down initial_state) = Return 2 /\
  fst (script Examples.all_down initial_state) = Exit 2.
Proof.
  destruct (total_failure_completes Examples.all_down
              eq_refl eq_refl eq_refl eq_refl eq_refl)
    as (s' & -> & -> & _).
  split; reflexivity.
Defined.

(** C4 as the specification states it fails: total failure does not by
    itself make the run complete.  With the dashboard URL ["https://[bad"]
    every probe fails: the three requests fail and are turned into
    unhealthy results, so that the dictionary is still all unhealthy after
    three blocks.  Then [urlparse], which the HTTPS block calls outside any
    [try], raises [ValueError] on the URL.  [main] returns no code and
    reports no score; the process prints the error and exits with 1. *)
Lemma total_failure_can_abort :
  responded_200 (dashboard_outcome Examples.bad_url) = false /\
  responded_200 (manager_outcome Examples.bad_url) = false /\
  responded_200 (indexer_outcome Examples.bad_url) = false /\
  https_ok Examples.bad_url = false /\
  fst (main_upto Examples.bad_url 3 initial_state)
  = Return initial_health_status /\
  fst (main Examples.bad_url initial_state) = Raise Examples.value_error /\
  fst (script Examples.bad_url initial_state) = Exit 1 /\
  last (stdout (snd (script Examples.bad_url initial_state))) []
  = [Str (Py.nl ++ "❌ Unexpected error: Invalid IPv6 URL")] /\
  ~ In [Str "📊 System Health Score: "; Fixed 1 (Py.Float 0);
        Str "% (0/4 components healthy)"]
       (stdout (snd (script Examples.bad_url initial_state))).
Proof.
  repeat (split; [vm_compute; reflexivity|]).
  vm_compute. intuition discriminate.
Qed.

(** ** The dictionary during a run *)

Lemma status_at_monotone (w : world) (n m : nat) (component : string) :
  (n <= m)%nat ->
  Py.getitem (status_at w n) component = Some true ->
  Py.getitem (status_at w m) component = Some true.
Proof.
  intros Hnm. unfold status_at. cbn [Py.getitem].
  repeat match goal with
         | |- context [String.eqb ?k component] =>
             destruct (String.eqb k component)
         end;
    try discriminate;
    intros [= E]; f_equal;
    apply andb_true_iff in E; destruct E as [E1 E2]; rewrite E2;
    apply Nat.ltb_lt in E1; rewrite andb_true_r; apply Nat.ltb_lt; lia.
Qed.

(** C7. At every point of a run between two blocks, [health_status] has
    exactly the four declared keys in the order of their declaration.  Every
    entry starts unhealthy; after [n] blocks an entry is healthy exactly
    when its block is among these [n] and its probe succeeded; and an entry
    that is healthy stays healthy for the rest of the run, so it is set at
    most once. *)
Theorem health_status_always_complete (w : world) (n : nat)
        (hs : Py.dict bool) :
  fst (main_upto w n initial_state) = Return hs ->
  Py.keys hs = component_keys /\
  hs = [("dashboard_ui", (0 <? n)%nat && responded_200 (dashboard_outcome w));
        ("manager_api", (1 <? n)%nat && responded_200 (manager_outcome w));
        ("indexer_api", (2 <? n)%nat && responded_200 (indexer_outcome w));
        ("ssl_validation", (3 <? n)%nat && https_ok w)] /\
  (n = 0%nat -> hs = initial_health_status) /\
  (forall component status,
      In (component, status) (Py.items initial_health_status) ->
      status = false) /\
  (forall m hs',
      (n <= m)%nat ->
      fst (main_upto w m initial_state) = Return hs' ->
      forall component,
        Py.getitem hs component = Some true ->
        Py.getitem hs' component = Some true).
Proof.
  intros H. destruct (main_upto_run w n) as (R & _). rewrite R in H.
  apply status_upto_returns in H. subst hs.
  split; [reflexivity|]. split; [reflexivity|].
  split; [now intros ->|].
  split.
  - intros c st [E|[E|[E|[E|[]]]]]; now inversion E.
  - intros m hs' Hnm H' c.
    destruct (main_upto_run w m) as (R' & _). rewrite R' in H'.
    apply status_upto_returns in H'. subst hs'.
    now apply status_at_monotone.
Qed.

Lemma health_status_always_complete_witness :
  Py.keys [("dashboard_ui", true); ("manager_api", false);
           ("indexer_api", false); ("ssl_validation", false)]
  = component_keys.
Proof.
  exact (proj1 (health_status_always_complete Examples.mixed 2
                  (hs := [("dashboard_ui", true); ("manager_api", false);
                          ("indexer_api", false); ("ssl_validation", false)])
                  eq_refl)).
Defined.

(** ** The order of the probes *)

Lemma blocks_started_bounds (w : world) :
  (1 <= blocks_started w 4 <= 4)%nat.
Proof.
  unfold blocks_started, flags. cbn [firstn started].
  destruct (probe_flag caught_by_ui (dashboard_outcome w)); [|lia].
  destruct (probe_flag caught_by_endpoint (manager_outcome w)); [|lia].
  destruct (probe_flag caught_by_endpoint (indexer_outcome w)); [|lia].
  destruct (https_flag w); lia.
Qed.

Lemma blocks_started_all (w : world) (hs : Py.dict bool) :
  status_upto w 4 = Return hs -> blocks_started w 4 = 4%nat.
Proof.
  unfold status_upto, blocks_started, flags. cbn [firstn started record_all].
  destruct (probe_flag caught_by_ui (dashboard_outcome w)); [|discriminate].
  destruct (probe_flag caught_by_endpoint (manager_outcome w));
    [|discriminate].
  destruct (probe_flag caught_by_endpoint (indexer_outcome w));
    [|discriminate].
  destruct (https_flag w); [reflexivity|discriminate].
Qed.

(** When [main] returns, its four blocks all ran to their end. *)
Lemma main_returned (w : world) (code : Z) :
  fst (main w initial_state) = Return code ->
  status_upto w 4 = Return (status_at w 4).
Proof.
  destruct (main_run w) as (R & _). rewrite R.
  destruct (status_upto w 4) as [hs|e] eqn:E; [|discriminate].
  intros _. now rewrite (status_upto_returns w 4 E).
Qed.

(** C8. In every run, returned or cut short by an exception, the requests
    sent are the first ones of: dashboard, manager API, indexer API, in this
    order, and the block headers printed are the first ones of the four
    headers in the order of the blocks; at least the first block is entered.
    When [main] returns, all three requests were sent and all four headers
    printed, in that order, and each entry of [health_status] is the outcome
    of its own probe: whether the answer to its own request had status 200
    (for the last entry, whether the schemes are all ["https"]). *)
Theorem probes_run_in_order (w : world) :
  requests_sent (snd (main w initial_state))
  = firstn (blocks_started w 4)
      [probe_request (dashboard_url w); probe_request (manager_api_url w);
       probe_request (indexer_url w)] /\
  headers_of (snd (main w initial_state))
  = firstn (blocks_started w 4) headers /\
  (1 <= blocks_started w 4 <= 4)%nat /\
  forall code,
    fst (main w initial_state) = Return code ->
    requests_sent (snd (main w initial_state))
    = [probe_request (dashboard_url w); probe_request (manager_api_url w);
       probe_request (indexer_url w)] /\
    headers_of (snd (main w initial_state)) = headers /\
    fst (main_upto w 4 initial_state)
    = Return [("dashboard_ui", responded_200 (dashboard_outcome w));
              ("manager_api", responded_200 (manager_outcome w));
              ("indexer_api", responded_200 (indexer_outcome w));
              ("ssl_validation", https_ok w)].
Proof.
  destruct (main_run w) as (_ & Q & G & _).
  split; [exact Q|]. split; [exact G|].
  split; [apply blocks_started_bounds|].
  intros code Hc. apply main_returned in Hc.
  rewrite Q, G, (blocks_started_all w Hc).
  repeat split.
  destruct (main_upto_run w 4) as (-> & _). exact Hc.
Qed.

Lemma probes_run_in_order_witness :
  requests_sent (snd (main Examples.mixed initial_state))
  = [{| req_url := "https://localhost:443"; req_timeout := 10;
        req_verify := false |};
     {| req_url := "https://localhost:55000"; req_timeout := 10;
        req_verify := false |};
     {| req_url := "https://localhost:9200"; req_timeout := 10;
        req_verify := false |}].
Proof.
  destruct (probes_run_in_order Examples.mixed) as (_ & _ & _ & H).
  destruct (H 1 eq_refl) as (-> & _). reflexivity.
Defined.

(** ** The HTTPS check *)





(** ** Comparing a float with an integer threshold *)

Lemma digits2_pos_size (m : positive) : digits2_pos m = Pos.size m.
Proof. induction m; cbn; now rewrite ?IHm. Qed.

(** A positive number of [d] binary digits lies in [[2^(d-1), 2^d)]. *)
Lemma digits2_pos_bounds (m : positive) :
  2 ^ (Z.pos (digits2_pos m) - 1) <= Z.pos m < 2 ^ Z.pos (digits2_pos m).
Proof.
  rewrite digits2_pos_size. split.
  - pose proof (Pos.size_le m) as H.
    apply Pos2Z.pos_le_pos in H. rewrite Pos2Z.inj_pow in H.
    replace (Z.pos (Pos.size m)) with (Z.pos (Pos.size m) - 1 + 1) in H by lia.
    rewrite Z.pow_add_r in H by lia. change (Z.pos m~0) with (2 * Z.pos m) in H.
    lia.
  - pose proof (Pos.size_gt m) as H.
    apply Pos2Z.pos_lt_pos in H. now rewrite Pos2Z.inj_pow in H.
Qed.

(** What being a valid binary64 mantissa and exponent says in numbers: at
    most 53 digits, and exactly 53 above the smallest exponent. *)
Lemma bounded_digits (m : positive) (e : Z) :
  bounded prec emax m e = true ->
  Z.pos m < 2 ^ 53 /\ (-1074 < e -> 2 ^ 52 <= Z.pos m) /\ -1074 <= e.
Proof.
  unfold bounded, canonical_mantissa, fexp.
  intros H. apply andb_true_iff in H as [H _]. apply Z.eqb_eq in H.
  change (SpecFloat.emin prec emax) with (-1074) in H.
  change prec with 53 in H.
  pose proof (digits2_pos_bounds m) as [Hlo Hhi].
  set (d := Z.pos (digits2_pos m)) in *.
  assert (Hd : d <= 53) by lia.
  repeat split; try lia.
  - apply Z.lt_le_trans with (2 ^ d); [exact Hhi|].
    apply Z.pow_le_mono_r; lia.
  - intros He. assert (d = 53) by lia. subst d.
    replace 52 with (Z.pos (digits2_pos m) - 1) by lia. exact Hlo.
Qed.

Lemma Some_eq {A} (a b : A) : Some a = Some b -> a = b.
Proof. congruence. Qed.

Section Threshold.
(** An integer [T] that is the float of mantissa [mt] and exponent [et],
    with 53 digits and a negative exponent. *)
Variables (T : Z) (mt : positive) (et : Z).
Hypothesis et_negative : -1074 < et < 0.
Hypothesis mt_value : Z.pos mt = T * 2 ^ (- et).
Hypothesis mt_digits : 2 ^ 52 <= Z.pos mt < 2 ^ 53.

Lemma threshold_positive : 0 < T.
Proof.
  assert (0 < 2 ^ (- et)) by (apply Z.pow_pos_nonneg; lia). nia.
Qed.

Lemma SFleb_threshold (x : spec_float) (q : Q) :
  valid_binary x = true ->
  Q_of_spec_float x = Some q ->
  SFleb (S754_finite false mt et) x = true <-> (inject_Z T <= q)%Q.
Proof.
  pose proof threshold_positive as HT.
  destruct x as [s| s | | s m e]; unfold Q_of_spec_float; try discriminate.
  - (* zero *)
    intros _ [= <-]. unfold SFleb, SFcompare, Qle. cbn. split; [discriminate|lia].
  - intros Hv Hq. unfold SpecFloat.valid_binary in Hv. apply bounded_digits in Hv as (Hhi & Hlo & Hmin).
    destruct s.
    + (* negative *)
      apply Some_eq in Hq; subst q. unfold SFleb, SFcompare.
      split; [discriminate|]. intros Hle. exfalso. revert Hle.
      destruct (0 <=? e) eqn:E; cbv beta iota zeta delta [Qle Qnum Qden inject_Z].
      * apply Z.leb_le in E.
        assert (0 < 2 ^ e) by (apply Z.pow_pos_nonneg; lia).
        assert (Z.neg m * 2 ^ e < 0)
          by (apply Z.mul_neg_pos; [apply Pos2Z.neg_is_neg | assumption]).
        lia.
      * pose proof (Pos2Z.neg_is_neg m).
        assert (0 < T * Z.pos (Z.to_pos (2 ^ (- e))))
          by (apply Z.mul_pos_pos; lia).
        lia.
    + apply Some_eq in Hq; subst q. unfold SFleb, SFcompare.
      assert (Hpt : 0 < 2 ^ (- et)) by (apply Z.pow_pos_nonneg; lia).
      destruct (Z.compare_spec et e) as [Heq|Hlt|Hgt].
      * subst e. replace (0 <=? et) with false by (symmetry; apply Z.leb_gt; lia).
        cbv beta iota zeta delta [Qle Qnum Qden inject_Z].
        rewrite Z2Pos.id by lia. rewrite <- mt_value.
        rewrite Pos.compare_cont_spec. unfold Pos.switch_Eq.
        destruct (Pos.compare_spec mt m) as [->|Hl|Hg];
          (split; [intros Hb | intros Hle]);
          try reflexivity; try discriminate; lia.
      * split; [intros _|reflexivity].
        specialize (Hlo ltac:(lia)).
        destruct (0 <=? e) eqn:E; cbv beta iota zeta delta [Qle Qnum Qden inject_Z].
        -- apply Z.leb_le in E.
           assert (1 <= 2 ^ e) by (apply (Z.pow_le_mono_r 2 0 e); lia).
           assert (2 <= 2 ^ (- et)) by (apply (Z.pow_le_mono_r 2 1 (- et)); lia).
           nia.
        -- apply Z.leb_gt in E. rewrite Z2Pos.id by (apply Z.pow_pos_nonneg; lia).
           assert (0 < 2 ^ (- e)) by (apply Z.pow_pos_nonneg; lia).
           assert (2 * 2 ^ (- e) <= 2 ^ (- et)).
           { replace (- et) with (1 + (- e) + (e - et - 1)) by lia.
             rewrite !Z.pow_add_r by lia.
             assert (1 <= 2 ^ (e - et - 1)) by (apply (Z.pow_le_mono_r 2 0); lia).
             change (2 ^ 1) with 2. nia. }
           nia.
      * split; [discriminate|]. intros Hle. exfalso. revert Hle.
        replace (0 <=? e) with false by (symmetry; apply Z.leb_gt; lia).
        cbv beta iota zeta delta [Qle Qnum Qden inject_Z].
        rewrite Z2Pos.id by (apply Z.pow_pos_nonneg; lia).
        assert (2 * 2 ^ (- et) <= 2 ^ (- e)).
        { replace (- e) with (1 + (- et) + (et - e - 1)) by lia.
          rewrite !Z.pow_add_r by lia.
          assert (1 <= 2 ^ (et - e - 1)) by (apply (Z.pow_le_mono_r 2 0); lia).
          change (2 ^ 1) with 2. nia. }
        nia.
Qed.
End Threshold.

Lemma leb_integer (T : Z) (mt : positive) (et : Z) (t score : float) (q : Q) :
  Prim2SF t = S754_finite false mt et ->
  -1074 < et < 0 ->
  Z.pos mt = T * 2 ^ (- et) ->
  2 ^ 52 <= Z.pos mt < 2 ^ 53 ->
  float_value score = Some q ->
  PrimFloat.leb t score = true <-> (inject_Z T <= q)%Q.
Proof.
  intros Ht He Hm Hd Hq. rewrite FloatAxioms.leb_spec, Ht.
  apply SFleb_threshold; auto. apply Prim2SF_valid.
Qed.

Lemma leb_75 (score : float) (q : Q) :
  float_value score = Some q ->
  PrimFloat.leb 75 score = true <-> (75 <= q)%Q.
Proof.
  apply (@leb_integer 75 5277655813324800 (-46)); try reflexivity; lia.
Qed.

Lemma leb_50 (score : float) (q : Q) :
  float_value score = Some q ->
  PrimFloat.leb 50 score = true <-> (50 <= q)%Q.
Proof.
  apply (@leb_integer 50 7036874417766400 (-47)); try reflexivity; lia.
Qed.

(** ** The verdict *)

(** C2. The verdict depends on the score alone.  For a score that is a
    finite float of exact value [q]: healthy exactly when [75 <= q],
    degraded exactly when [50 <= q < 75], unhealthy exactly when [q < 50];
    so 75 itself is healthy and 50 itself is degraded.  Of the other floats,
    plus infinity is healthy, minus infinity and NaN are unhealthy.  The
    final block of [main] returns 0 for healthy, 1 for degraded and 2 for
    unhealthy; and when [main] returns, what it returns is that code for the
    score of the final dictionary, and the process exits with it. *)
Theorem classify_thresholds (w : world) (score : float) :
  (forall q,
      float_value score = Some q ->
      (classify score = Healthy <-> (75 <= q)%Q) /\
      (classify score = Degraded <-> (50 <= q)%Q /\ (q < 75)%Q) /\
      (classify score = Unhealthy <-> (q < 50)%Q)) /\
  (Prim2SF score = S754_infinity false -> classify score = Healthy) /\
  (Prim2SF score = S754_infinity true -> classify score = Unhealthy) /\
  (Prim2SF score = S754_nan -> classify score = Unhealthy) /\
  classify 75 = Healthy /\ classify 50 = Degraded /\
  exit_code Healthy = 0 /\ exit_code Degraded = 1 /\
  exit_code Unhealthy = 2 /\
  (forall s,
      final_status score s
      = (Return (exit_code (classify score)),
         emit s [final_message (classify score) score])) /\
  (forall code,
      fst (main w initial_state) = Return code ->
      exists hs final_score,
        fst (main_upto w 4 initial_state) = Return hs /\
        health_score hs = Return final_score /\
        code = exit_code (classify final_score) /\
        script w initial_state = (Exit code, snd (main w initial_state))).
Proof.
  split.
  { intros [a b] Hq.
    pose proof (leb_75 score Hq) as H75. pose proof (leb_50 score Hq) as H50.
    unfold classify. unfold Qle, Qlt in *. cbn [Qnum Qden] in *.
    destruct (PrimFloat.leb 75 score); [|destruct (PrimFloat.leb 50 score)];
      repeat split; intros; try discriminate; try reflexivity;
      try (assert (true = true) by reflexivity);
      try lia;
      try (exfalso;
           match goal with
           | H : false = true <-> _ |- _ =>
               assert (false = true) by (apply H; lia); discriminate
           end). }
  split.
  { intros H. unfold classify. now rewrite FloatAxioms.leb_spec, H. }
  split.
  { intros H. unfold classify. now rewrite !FloatAxioms.leb_spec, H. }
  split.
  { intros H. unfold classify. now rewrite !FloatAxioms.leb_spec, H. }
  repeat (split; [reflexivity|]).
  intros code Hc.
  pose proof (main_returned w Hc) as Hs.
  destruct (main_run w) as (R & _). rewrite R, Hs in Hc.
  destruct (report_returns (status_at w 4) (status_at_keys w 4))
    as (sc & Hsc & Hr).
  rewrite Hr in Hc. injection Hc as <-.
  exists (status_at w 4), sc.
  split; [destruct (main_upto_run w 4) as (-> & _); exact Hs|].
  split; [exact Hsc|]. split; [reflexivity|].
  apply script_exit. now rewrite R, Hs.
Qed.

(** The boundary cases of the verdict just below each threshold: the floats
    nearest to 74.999 and to 49.999. *)
Example classify_below_thresholds :
  classify 0x1.2bfef9db22d0ep+6 = Degraded /\
  classify 0x1.8ffdf3b645a1dp+5 = Unhealthy.
Proof. split; reflexivity. Qed.

Lemma classify_thresholds_witness :
  classify 25 = Unhealthy /\
  fst (script Examples.mixed initial_state) = Exit 1.
Proof.
  destruct (classify_thresholds Examples.mixed 25)
    as (Hq & _ & _ & _ & _ & _ & _ & _ & _ & _ & Hm).
  split.
  - apply (proj2 (proj2 (Hq _ eq_refl))). reflexivity.
  - destruct (Hm 1 eq_refl) as (hs & sc & _ & _ & _ & ->). reflexivity.
Defined.

(** * Further properties of [health_check.py] *)

(** ** How the process ends *)

(** The code [report] returns, by the number of healthy entries. *)
Lemma report_code_by_count (hs : Py.dict bool) :
  Py.keys hs = component_keys ->
  fst (report hs initial_state)
  = Return (if 3 <=? healthy_count hs then 0
            else if 2 <=? healthy_count hs then 1 else 2).
Proof. intros H. four_cases hs H; vm_compute; reflexivity. Qed.

(** Either the four blocks all return or an exception leaves one of them. *)
Lemma status_upto_4_cases (w : world) :
  (no_escape w = true /\ status_upto w 4 = Return (status_at w 4)) \/
  (no_escape w = false /\ exists e, status_upto w 4 = Raise e).
Proof.
  destruct (no_escape w) eqn:E.
  - left. split; [reflexivity|]. now apply status_upto_4_returns_iff.
  - right. split; [reflexivity|].
    destruct (status_upto w 4) as [hs|e] eqn:S; [|eauto].
    pose proof (status_upto_returns w 4 S) as ->.
    apply status_upto_4_returns_iff in S. congruence.
Qed.

(** What [main] gives, in the two cases. *)
Lemma main_cases (w : world) :
  (no_escape w = true /\
   fst (main w initial_state)
   = Return (if 3 <=? healthy_count (status_at w 4) then 0
             else if 2 <=? healthy_count (status_at w 4) then 1 else 2)) \/
  (no_escape w = false /\
   exists e, status_upto w 4 = Raise e /\
             fst (main w initial_state) = Raise e).
Proof.
  destruct (main_run w) as (R & _).
  destruct (status_upto_4_cases w) as [[E S]|[E [e S]]]; rewrite S in R.
  - left. split; [exact E|]. rewrite R.
    apply report_code_by_count, status_at_keys.
  - right. split; [exact E|]. eauto.
Qed.

Lemma script_of_main (w : world) :
  fst (script w initial_state)
  = match fst (main w initial_state) with
    | Return code => Exit code
    | Raise e =>
        if is_KeyboardInterrupt e then Exit 1
        else if is_Exception e then Exit 1
        else Uncaught e
    end.
Proof.
  unfold script. destruct (main w initial_state) as [[code|e] s']; cbn.
  - reflexivity.
  - destruct (is_KeyboardInterrupt e); [reflexivity|].
    destruct (is_Exception e); reflexivity.
Qed.

(** X1. The process always ends in one of two ways: with exit status 0, 1
    or 2, or with an exception that [main] raised and that is neither a
    [KeyboardInterrupt] nor an instance of [Exception]. *)
Theorem script_exit_status (w : world) :
  match fst (script w initial_state) with
  | Exit code => code = 0 \/ code = 1 \/ code = 2
  | Uncaught e =>
      fst (main w initial_state) = Raise e /\
      is_KeyboardInterrupt e = false /\ is_Exception e = false
  end.
Proof.
  rewrite script_of_main.
  destruct (main_cases w) as [[_ ->]|[_ (e & _ & ->)]].
  - destruct (3 <=? _); [auto|]. destruct (2 <=? _); auto.
  - destruct (is_KeyboardInterrupt e) eqn:K; [auto|].
    destruct (is_Exception e) eqn:X; auto.
Qed.

(** X2. The exit status says how many components are healthy only in part.
    It is 0 exactly when the run completed with at least three of the four
    healthy, and 2 exactly when it completed with at most one healthy.  It
    is 1 when the run completed with exactly two healthy, and also whenever
    an exception that is a [KeyboardInterrupt] or an [Exception] left
    [main]. *)
Theorem exit_status_by_healthy_count (w : world) :
  (fst (script w initial_state) = Exit 0 <->
   no_escape w = true /\ 3 <= healthy_count (status_at w 4)) /\
  (fst (script w initial_state) = Exit 2 <->
   no_escape w = true /\ healthy_count (status_at w 4) <= 1) /\
  (fst (script w initial_state) = Exit 1 <->
   (no_escape w = true /\ healthy_count (status_at w 4) = 2) \/
   (exists e, fst (main w initial_state) = Raise e /\
              (is_KeyboardInterrupt e || is_Exception e) = true)).
Proof.
  rewrite script_of_main.
  destruct (main_cases w) as [[E ->]|[E (e & _ & ->)]]; rewrite E.
  - assert (Hk : 0 <= healthy_count (status_at w 4))
      by (unfold healthy_count; lia).
    set (k := healthy_count (status_at w 4)) in *.
    destruct (3 <=? k) eqn:H3; [apply Z.leb_le in H3|apply Z.leb_gt in H3];
      [|destruct (2 <=? k) eqn:H2;
        [apply Z.leb_le in H2|apply Z.leb_gt in H2]].
    + split; [|split]; (split; [intros H|intros H]).
      * split; [reflexivity|lia].
      * reflexivity.
      * discriminate H.
      * destruct H as [_ H]; lia.
      * discriminate H.
      * destruct H as [[_ H]|(e & H & _)]; [lia|discriminate H].
    + split; [|split]; (split; [intros H|intros H]).
      * discriminate H.
      * destruct H as [_ H]; lia.
      * discriminate H.
      * destruct H as [_ H]; lia.
      * left. split; [reflexivity|lia].
      * reflexivity.
    + split; [|split]; (split; [intros H|intros H]).
      * discriminate H.
      * destruct H as [_ H]; lia.
      * split; [reflexivity|lia].
      * reflexivity.
      * discriminate H.
      * destruct H as [[_ H]|(e & H & _)]; [lia|discriminate H].
  - assert (Hx : (if is_KeyboardInterrupt e then Exit 1
                  else if is_Exception e then Exit 1 else Uncaught e)
                 = if is_KeyboardInterrupt e || is_Exception e
                   then Exit 1 else Uncaught e)
      by (destruct (is_KeyboardInterrupt e), (is_Exception e); reflexivity).
    rewrite Hx. clear Hx.
    destruct (is_KeyboardInterrupt e || is_Exception e) eqn:K.
    + split; [|split]; (split; [intros H|intros H]).
      * discriminate H.
      * destruct H as [H _]; discriminate H.
      * discriminate H.
      * destruct H as [H _]; discriminate H.
      * right. exists e. split; [reflexivity|exact K].
      * reflexivity.
    + split; [|split]; (split; [intros H|intros H]).
      * discriminate H.
      * destruct H as [H _]; discriminate H.
      * discriminate H.
      * destruct H as [H _]; discriminate H.
      * discriminate H.
      * destruct H as [[H _]|(e' & H' & H)]; [discriminate H|].
        injection H' as <-. rewrite K in H. discriminate H.
Qed.

(** ** When an exception leaves [main] *)

(** X4. When an exception leaves [main], the report is not run: the state
    is the one the blocks left.  The process prints one more line and exits
    with 1: the interruption notice for a [KeyboardInterrupt], and
    otherwise, for an [Exception], ["Unexpected error: "] followed by its
    description. *)
Theorem script_reports_exception (w : world) (e : exn) :
  fst (main w initial_state) = Raise e ->
  snd (main w initial_state) = snd (main_upto w 4 initial_state) /\
  (is_KeyboardInterrupt e = true ->
   script w initial_state
   = (Exit 1,
      emit (snd (main_upto w 4 initial_state))
           [[Str (Py.nl ++ Py.nl
                  ++ "⏹️  Health check interrupted by user")]])) /\
  (is_KeyboardInterrupt e = false -> is_Exception e = true ->
   script w initial_state
   = (Exit 1,
      emit (snd (main_upto w 4 initial_state))
           [[Str (Py.nl ++ "❌ Unexpected error: " ++ exn_str e)]])).
Proof.
  intros H.
  assert (Hs : snd (main w initial_state) = snd (main_upto w 4 initial_state)).
  { revert H. rewrite !main_blocks, bind_result, bind_state.
    destruct (fst (main_upto w 4 initial_state)) as [hs|e'] eqn:F;
      [|reflexivity].
    destruct (main_upto_run w 4) as (R & _). rewrite F in R.
    symmetry in R. pose proof (status_upto_returns w 4 R) as ->.
    destruct (report_returns (status_at w 4) (status_at_keys w 4))
      as (sc & _ & Hr).
    rewrite report_result, Hr. discriminate. }
  split; [exact Hs|]. rewrite <- Hs.
  unfold script. rewrite (run_pair (main w) initial_state), H.
  split.
  - now intros ->.
  - now intros -> ->.
Qed.

Lemma script_reports_exception_witness :
  fst (script (Examples.answering (Raise Examples.keyboard_interrupt))
              initial_state) = Exit 1.
Proof.
  destruct (script_reports_exception
              (Examples.answering (Raise Examples.keyboard_interrupt))
              (e := Examples.keyboard_interrupt) eq_refl) as (_ & H & _).
  now rewrite (H eq_refl).
Defined.

(** ** The HTTPS loop on any list of endpoints *)

(** An endpoint whose URL parses to a scheme other than ["https"]. *)
Definition not_https (w : world) (endpoint : string * string) : bool :=
  match urlparse_scheme w (snd endpoint) with
  | Return scheme => negb (String.eqb scheme "https")
  | Raise _ => false
  end.

(** One turn of the loop. *)
Lemma ssl_loop_cons (w : world) (name url : string)
      (rest : list (string * string)) (ssl_issues : list string) (s : state) :
  ssl_loop w ((name, url) :: rest) ssl_issues s
  = match urlparse_scheme w url with
    | Raise e => (Raise e, s)
    | Return scheme =>
        if String.eqb scheme "https"
        then ssl_loop w rest ssl_issues
               (emit s [[Str ("✅ " ++ name ++ ": HTTPS configured")]])
        else ssl_loop w rest (ssl_issues ++ [name])%list
               (emit s [[Str ("❌ " ++ name ++ ": Not using HTTPS")]])
    end.
Proof.
  cbn [ssl_loop]. unfold scheme_of, lift, bind at 1.
  destruct (urlparse_scheme w url) as [scheme|e]; [|reflexivity].
  destruct (String.eqb scheme "https"); reflexivity.
Qed.

(** X5. On any list of named endpoints, the loop of the HTTPS check sends
    no request and reads no clock.  If it returns, [urlparse] accepted every
    URL, one line was printed per endpoint, and the issues are those it
    started with followed by the names of the endpoints whose scheme is not
    ["https"], in the order of the list.  If it raises, the exception is one
    that [urlparse] raised on a URL of the list. *)
Theorem ssl_loop_collects (w : world) (endpoints : list (string * string))
        (ssl_issues : list string) (s : state) :
  requests_sent (snd (ssl_loop w endpoints ssl_issues s)) = requests_sent s /\
  clock_reads (snd (ssl_loop w endpoints ssl_issues s)) = clock_reads s /\
  match fst (ssl_loop w endpoints ssl_issues s) with
  | Return issues =>
      Forall (fun endpoint => parses w (snd endpoint) = true) endpoints /\
      issues = (ssl_issues ++ map fst (filter (not_https w) endpoints))%list /\
      List.length (stdout (snd (ssl_loop w endpoints ssl_issues s)))
      = (List.length (stdout s) + List.length endpoints)%nat
  | Raise e =>
      Exists (fun endpoint => urlparse_scheme w (snd endpoint) = Raise e)
             endpoints
  end.
Proof.
  revert ssl_issues s.
  induction endpoints as [|[name url] rest IH]; intros ssl_issues s.
  - cbn. rewrite app_nil_r. repeat split; auto.
  - rewrite ssl_loop_cons. cbn [filter]. unfold not_https at 1. cbn [snd].
    destruct (urlparse_scheme w url) as [scheme|e] eqn:E.
    + assert (P : parses w (snd (name, url)) = true)
        by (unfold parses; cbn [snd]; now rewrite E).
      destruct (String.eqb scheme "https"); cbn [negb];
        match goal with
        | |- context [ssl_loop w rest ?i ?st] =>
            destruct (IH i st) as (Hr & Hc & Ho);
            destruct (ssl_loop w rest i st) as [[issues|e'] s']
        end;
        cbn [fst snd emit requests_sent clock_reads stdout] in *;
        (split; [exact Hr|]); (split; [exact Hc|]).
      * destruct Ho as (Hp & -> & Hl). repeat split.
        -- now constructor.
        -- rewrite Hl, length_app. cbn. lia.
      * now constructor 2.
      * destruct Ho as (Hp & -> & Hl). repeat split.
        -- now constructor.
        -- cbn [map fst]. now rewrite <- app_assoc.
        -- rewrite Hl, length_app. cbn. lia.
      * now constructor 2.
    + cbn. repeat split; auto.
Qed.

(** ** Recommendations on a dictionary that lacks a key *)

(** The first declared key that a dictionary lacks. *)
Definition first_missing (hs : Py.dict bool) : option string :=
  find (fun key => match Py.getitem hs key with
                   | Some _ => false
                   | None => true
                   end) component_keys.

Lemma for_each_print_result (texts : list string) (s : state) :
  fst (for_each texts print_str s) = Return tt.
Proof.
  revert s. induction texts as [|text rest IH]; intros s; [reflexivity|].
  cbn [for_each]. rewrite bind_result. cbn [print_str print fst snd].
  apply IH.
Qed.

Lemma recommend_for_result (hs : Py.dict bool) (key : string) (s : state) :
  fst (recommend_for hs key s)
  = match Py.getitem hs key with
    | Some _ => Return tt
    | None => Raise (KeyError key)
    end.
Proof.
  unfold recommend_for, subscript. rewrite bind_result.
  destruct (Py.getitem hs key) as [[|]|]; cbn [ret raise fst snd negb].
  - reflexivity.
  - apply for_each_print_result.
  - reflexivity.
Qed.

(** X6. The recommendations block reads the dictionary only when the score
    is below 100.  At 100 or above it does nothing, whatever the dictionary
    holds.  Below 100 it raises [KeyError] for the first declared key that
    the dictionary lacks, and returns when it lacks none. *)
Theorem recommendations_missing_key (score : float) (hs : Py.dict bool)
        (s : state) :
  (PrimFloat.ltb score 100 = false ->
   print_recommendations score hs s = (Return tt, s)) /\
  (PrimFloat.ltb score 100 = true ->
   fst (print_recommendations score hs s)
   = match first_missing hs with
     | Some key => Raise (KeyError key)
     | None => Return tt
     end).
Proof.
  unfold print_recommendations. split; intros ->; [reflexivity|].
  unfold first_missing, component_keys. cbn [find].
  rewrite bind_result. cbn [print_str print fst snd].
  rewrite bind_result, recommend_for_result.
  destruct (Py.getitem hs "dashboard_ui"); [|reflexivity].
  rewrite bind_result, recommend_for_result.
  destruct (Py.getitem hs "manager_api"); [|reflexivity].
  rewrite bind_result, recommend_for_result.
  destruct (Py.getitem hs "indexer_api"); [|reflexivity].
  rewrite recommend_for_result.
  destruct (Py.getitem hs "ssl_validation"); reflexivity.
Qed.

Lemma recommendations_missing_key_witness :
  fst (print_recommendations 0 [("dashboard_ui", false)] initial_state)
  = Raise (KeyError "manager_api").
Proof.
  exact (proj2 (recommendations_missing_key 0 [("dashboard_ui", false)]
                  initial_state) eq_refl).
Defined.

(** ** The report touches nothing but the output *)

(** X7. On any dictionary, complete or not, the report sends no request and
    reads no clock; its result and the lines it prints are the same from
    every state, and the lines are added after what was printed before. *)
Theorem report_only_prints (hs : Py.dict bool) :
  exists (result : outcome Z) (lines : list line),
    forall s : state,
      report hs s
      = (result,
         {| requests_sent := requests_sent s;
            clock_reads := clock_reads s;
            stdout := (stdout s ++ lines)%list |}).
Proof. exact (prints_only_report hs). Qed.

(** * The test runner: a model of [run_tests.py]

    The runner checks that the test dependencies import, prepares the
    results directory, and runs one [pytest] command chosen by the command
    line flags.  The function [main] of the script first builds the parser
    and calls [parser.parse_args()]; [parse_args] stands for that call,
    [main] is the rest of the function, on the flags the call returned, and
    [main_from_command_line] is the whole function. *)

Module RunTests.

(** What [subprocess.run(cmd, check=True, capture_output=True, text=True)]
    gives: a completed process of exit status 0 with its output, a
    [CalledProcessError] for any other exit status, or another exception
    (the program is not found, say). *)
Inductive run_result :=
| Completed (out : string)
| CalledProcessError (returncode : Z) (out err : string)
| RunRaises (e : exn).

(** What an [import] statement gives. *)
Inductive import_result :=
| Imported
| ImportError (message : string)
| ImportRaises (e : exn).

(** The system the runner works in.  [subprocess_run n cmd] is what the
    [n]-th call of [subprocess.run] gives for [cmd]; [mkdir p] is
    [Path(p).mkdir(exist_ok=True)]; [file_exists p] is [Path(p).exists()]. *)
Record system := {
  subprocess_run : nat -> list string -> run_result;
  import_module : string -> import_result;
  mkdir : string -> outcome unit;
  file_exists : string -> bool
}.

(** What a run of the runner has done so far. *)
Record console := {
  commands_run : list (list string);
  imports_tried : list string;
  dirs_made : list string;
  printed : list line
}.

Definition fresh : console :=
  {| commands_run := []; imports_tried := []; dirs_made := [];
     printed := [] |}.

(** How a computation ends: with a value, by [sys.exit(code)], or by
    another exception. *)
Inductive result (A : Type) :=
| Ok (a : A)
| SystemExit (code : Z)
| Error (e : exn).
Arguments Ok {A} a.
Arguments SystemExit {A} code.
Arguments Error {A} e.

Definition R (A : Type) : Type := console -> result A * console.

Definition pure {A} (a : A) : R A := fun c => (Ok a, c).

Definition and_then {A B} (m : R A) (k : A -> R B) : R B :=
  fun c =>
    match m c with
    | (Ok a, c') => k a c'
    | (SystemExit code, c') => (SystemExit code, c')
    | (Error e, c') => (Error e, c')
    end.

Definition sys_exit {A} (code : Z) : R A := fun c => (SystemExit code, c).

Definition echo (text : string) : R unit :=
  fun c => (Ok tt,
            {| commands_run := commands_run c;
               imports_tried := imports_tried c;
               dirs_made := dirs_made c;
               printed := (printed c ++ [[Str text]])%list |}).

Declare Scope run_scope.
Delimit Scope run_scope with run.
Notation "x <- m ;; k" := (and_then m (fun x => k))
  (at level 61, m at next level, right associativity) : run_scope.
Notation "m ;; k" := (and_then m (fun _ => k))
  (at level 61, right associativity) : run_scope.
Local Open Scope run_scope.

(** [if text: print(title); print(text)]. *)
Definition echo_section (title text : string) : R unit :=
  match text with
  | EmptyString => pure tt
  | _ => echo title ;; echo text
  end.

Section Runner.
Variable sys : system.

(** [subprocess.run(cmd, ...)], the call logged. *)
Definition run (cmd : list string) : console -> run_result * console :=
  fun c =>
    (subprocess_run sys (List.length (commands_run c)) cmd,
     {| commands_run := (commands_run c ++ [cmd])%list;
        imports_tried := imports_tried c;
        dirs_made := dirs_made c;
        printed := printed c |}).

Definition run_command (cmd : list string) (description : string) : R bool :=
  echo (Py.nl ++ "🚀 " ++ description) ;;
  echo ("Command: " ++ Py.join " " cmd) ;;
  echo (Py.str_mul "-" 60) ;;
  fun c =>
    match run cmd c with
    | (Completed out, c') =>
        (echo "✅ Command completed successfully" ;;
         echo_section "Output:" out ;;
         pure true) c'
    | (CalledProcessError returncode out err, c') =>
        (echo ("❌ Command failed with exit code "
               ++ Py.str_of_int returncode) ;;
         echo_section "Stdout:" out ;;
         echo_section "Stderr:" err ;;
         pure false) c'
    | (RunRaises e, c') => (Error e, c')
    end.

(** The [import] statements of [check_dependencies], one after the other
    until one fails; the message of the [ImportError] if there is one. *)
Fixpoint import_all (modules : list string)
  : console -> result (option string) * console :=
  fun c =>
    match modules with
    | [] => (Ok None, c)
    | name :: rest =>
        let c' := {| commands_run := commands_run c;
                     imports_tried := (imports_tried c ++ [name])%list;
                     dirs_made := dirs_made c;
                     printed := printed c |} in
        match import_module sys name with
        | Imported => import_all rest c'
        | ImportError message => (Ok (Some message), c')
        | ImportRaises e => (Error e, c')
        end
    end.

Definition check_dependencies : R bool :=
  echo "🔍 Checking dependencies..." ;;
  missing <- import_all ["selenium"; "pytest"; "requests"] ;;
  match missing with
  | None =>
      echo "✅ All Python dependencies are available" ;;
      pure true
  | Some message =>
      echo ("❌ Missing dependency: " ++ message) ;;
      echo ("Please install dependencies with: "
            ++ "pip install -r requirements-test.txt") ;;
      pure false
  end.

Definition make_dir (path : string) : R unit :=
  fun c =>
    (match mkdir sys path with
     | Return _ => Ok tt
     | Raise e => Error e
     end,
     {| commands_run := commands_run c;
        imports_tried := imports_tried c;
        dirs_made := (dirs_made c ++ [path])%list;
        printed := printed c |}).

Definition setup_environment : R bool :=
  echo "🔧 Setting up testing environment..." ;;
  make_dir "test-results" ;;
  echo ("✅ Test results directory: " ++ "test-results") ;;
  (if negb (file_exists sys ".env") then
     echo ("⚠️  No .env file found. Please copy env.example to .env "
           ++ "and configure your settings.") ;;
     echo "   Tests may fail without proper configuration."
   else echo "✅ Environment configuration file found") ;;
  pure true.

(** The commands of the suites, of the health check and of the
    installation. *)
Definition ui_command : list string :=
  ["python"; "-m"; "pytest"; "tests/test_dashboard_ui.py"; "-v";
   "--tb=short"; "--html=test-results/ui-report.html";
   "--self-contained-html"].
Definition api_command : list string :=
  ["python"; "-m"; "pytest"; "tests/test_api_health.py"; "-v";
   "--tb=short"; "--html=test-results/api-report.html";
   "--self-contained-html"].
Definition integration_command : list string :=
  ["python"; "-m"; "pytest"; "tests/test_integration.py"; "-v";
   "--tb=short"; "--html=test-results/integration-report.html";
   "--self-contained-html"].
Definition all_command : list string :=
  ["python"; "-m"; "pytest"; "tests/"; "-v"; "--tb=short";
   "--html=test-results/full-report.html"; "--self-contained-html"].
Definition quick_command : list string :=
  ["python"; "-m"; "pytest"; "tests/"; "-v"; "--tb=short"; "-m";
   "not optional and not slow"; "--html=test-results/quick-report.html";
   "--self-contained-html"].
Definition health_command : list string :=
  ["python"; "-m"; "pytest";
   "tests/test_integration.py::TestWazuhIntegration::test_system_health_summary";
   "-v"; "--tb=short"].
Definition install_command : list string :=
  ["pip"; "install"; "-r"; "requirements-test.txt"].

Definition run_ui_tests : R bool := run_command ui_command "Running UI Tests".
Definition run_api_tests : R bool :=
  run_command api_command "Running API Tests".
Definition run_integration_tests : R bool :=
  run_command integration_command "Running Integration Tests".
Definition run_all_tests : R bool :=
  run_command all_command "Running All Tests".
Definition run_quick_tests : R bool :=
  run_command quick_command
              "Running Quick Tests (excluding optional and slow tests)".
Definition run_health_check : R bool :=
  run_command health_command "Running System Health Check".

(** The flags of the command line, as [parser.parse_args()] returns them. *)
Record namespace := {
  all : bool;
  ui : bool;
  api : bool;
  integration : bool;
  quick : bool;
  health : bool;
  install_deps : bool
}.

(** The "Run tests based on arguments" lines of [main]: the value of
    [success] after them. *)
Definition run_requested (args : namespace) : R bool :=
  let success := true in
  if ui args then
    passed <- run_ui_tests ;; pure (success && passed)
  else if api args then
    passed <- run_api_tests ;; pure (success && passed)
  else if integration args then
    passed <- run_integration_tests ;; pure (success && passed)
  else if quick args then
    passed <- run_quick_tests ;; pure (success && passed)
  else if health args then
    passed <- run_health_check ;; pure (success && passed)
  else if all args then
    passed <- run_all_tests ;; pure (success && passed)
  else
    echo ("ℹ️  No specific test type specified, "
          ++ "running health check...") ;;
    passed <- run_health_check ;; pure (success && passed).

(** What [parser.parse_args()] makes of the command line.  The parser
    knows the seven flags and, by default, [-h] and [--help].  It returns
    the flags; or, asked for help, it prints the help text and exits with
    status 0; or it rejects the command line (an option it does not know
    or cannot tell apart, a stray argument), writes a usage message to
    standard error, which [console] does not record, and exits with
    status 2. *)
Inductive command_line :=
| Flags (args : namespace)
| Help (text : string)
| Rejected.

Definition parse_args (line : command_line) : R namespace :=
  match line with
  | Flags args => pure args
  | Help text => echo text ;; sys_exit 0
  | Rejected => sys_exit 2
  end.

(** [main] from the line after [args = parser.parse_args()] on. *)
Definition main (args : namespace) : R unit :=
  echo "🔒 Wazuh SOC Testing Suite" ;;
  echo (Py.str_mul "=" 50) ;;
  if install_deps args then
    echo "📦 Installing dependencies..." ;;
    installed <- run_command install_command "Installing Dependencies" ;;
    if (installed : bool) then echo "✅ Dependencies installed successfully"
    else echo "❌ Failed to install dependencies" ;; sys_exit 1
  else
    available <- check_dependencies ;;
    (if negb available then
       echo (Py.nl ++ "❌ Please install dependencies first:") ;;
       echo "   python run_tests.py --install-deps" ;;
       sys_exit 1
     else pure tt) ;;
    ready <- setup_environment ;;
    (if negb ready then
       echo "❌ Failed to setup testing environment" ;;
       sys_exit 1
     else pure tt) ;;
    success <- run_requested args ;;
    echo (Py.nl ++ Py.str_mul "=" 50) ;;
    if (success : bool) then
      echo "🎉 All requested tests completed successfully!" ;;
      echo "📊 Check test-results/ directory for detailed reports"
    else
      echo "❌ Some tests failed. Check the output above for details." ;;
      sys_exit 1.

(** The whole of [main()]. *)
Definition main_from_command_line (line : command_line) : R unit :=
  args <- parse_args line ;;
  main args.

End Runner.

End RunTests.

(** * Properties of the test runner *)

Module RunTestsFacts.
Import RunTests.
Local Open Scope run_scope.

(** What a run has done besides printing. *)
Definition work (c : console) : list (list string) * list string * list string :=
  (commands_run c, imports_tried c, dirs_made c).

Lemma and_then_result {A B} (m : R A) (k : A -> R B) c :
  fst (and_then m k c)
  = match fst (m c) with
    | Ok a => fst (k a (snd (m c)))
    | SystemExit code => SystemExit code
    | Error e => Error e
    end.
Proof. unfold and_then. now destruct (m c) as [[a|code|e] c']. Qed.

Lemma and_then_state {A B} (m : R A) (k : A -> R B) c :
  snd (and_then m k c)
  = match fst (m c) with
    | Ok a => snd (k a (snd (m c)))
    | _ => snd (m c)
    end.
Proof. unfold and_then. now destruct (m c) as [[a|code|e] c']. Qed.

(** A computation that only prints, and always ends the same way. *)
Definition only_prints {A} (m : R A) (r : result A) : Prop :=
  forall c, fst (m c) = r /\ work (snd (m c)) = work c.

Lemma only_prints_echo text : only_prints (echo text) (Ok tt).
Proof. intros c. now split. Qed.

Lemma only_prints_pure {A} (a : A) : only_prints (pure a) (Ok a).
Proof. intros c. now split. Qed.

Lemma only_prints_exit {A} code : only_prints (@sys_exit A code) (SystemExit code).
Proof. intros c. now split. Qed.

Lemma only_prints_then {A B} (m : R A) (k : A -> R B) a r :
  only_prints m (Ok a) -> only_prints (k a) r -> only_prints (and_then m k) r.
Proof.
  intros Hm Hk c. rewrite and_then_result, and_then_state.
  destruct (Hm c) as [-> Hw]. destruct (Hk (snd (m c))) as [-> Hw'].
  split; [reflexivity|]. now rewrite Hw'.
Qed.

Lemma only_prints_section title text :
  only_prints (echo_section title text) (Ok tt).
Proof.
  destruct text; [apply only_prints_pure|].
  eapply only_prints_then; apply only_prints_echo.
Qed.

Ltac only_prints :=
  repeat first
    [ apply only_prints_echo
    | apply only_prints_pure
    | apply only_prints_exit
    | apply only_prints_section
    | eapply only_prints_then ].

Section Facts.
Variable sys : system.

(** How [run_command] ends, by what [subprocess.run] gave. *)
Definition command_result (r : run_result) : result bool :=
  match r with
  | Completed _ => Ok true
  | CalledProcessError _ _ _ => Ok false
  | RunRaises e => Error e
  end.

Lemma run_command_run (cmd : list string) (description : string) (c : console) :
  fst (run_command sys cmd description c)
  = command_result (subprocess_run sys (List.length (commands_run c)) cmd) /\
  work (snd (run_command sys cmd description c))
  = ((commands_run c ++ [cmd])%list, imports_tried c, dirs_made c).
Proof.
  unfold run_command.
  rewrite !and_then_result, !and_then_state. cbn [echo fst snd].
  unfold run. cbn [commands_run imports_tried dirs_made printed].
  destruct (subprocess_run sys (List.length (commands_run c)) cmd)
    as [out|code out err|e]; cbn [command_result].
  - match goal with
    | |- fst (?m ?c') = _ /\ _ =>
        assert (H : only_prints m (Ok true)) by only_prints;
        destruct (H c') as [-> ->]
    end.
    now split.
  - match goal with
    | |- fst (?m ?c') = _ /\ _ =>
        assert (H : only_prints m (Ok false)) by only_prints;
        destruct (H c') as [-> ->]
    end.
    now split.
  - now split.
Qed.

(** [runs m c r w]: from [c], [m] ends as [r] having done the work [w]. *)
Definition runs {A} (m : R A) (c : console) (r : result A)
           (w : list (list string) * list string * list string) : Prop :=
  fst (m c) = r /\ work (snd (m c)) = w.

Lemma runs_then {A B} (m : R A) (k : A -> R B) c a w1 r w2 :
  runs m c (Ok a) w1 ->
  (forall c1, work c1 = w1 -> runs (k a) c1 r w2) ->
  runs (and_then m k) c r w2.
Proof.
  intros [Hr Hw] Hk. unfold runs.
  rewrite and_then_result, and_then_state, Hr. now apply Hk.
Qed.

Lemma runs_stop_exit {A B} (m : R A) (k : A -> R B) c code w :
  runs m c (SystemExit code) w -> runs (and_then m k) c (SystemExit code) w.
Proof.
  intros [Hr Hw]. unfold runs. now rewrite and_then_result, and_then_state, Hr.
Qed.

Lemma runs_stop_error {A B} (m : R A) (k : A -> R B) c e w :
  runs m c (Error e) w -> runs (and_then m k) c (Error e) w.
Proof.
  intros [Hr Hw]. unfold runs. now rewrite and_then_result, and_then_state, Hr.
Qed.

Lemma runs_only_prints {A} (m : R A) r c w :
  only_prints m r -> work c = w -> runs m c r w.
Proof. intros H <-. exact (H c). Qed.

Lemma runs_run_command cmd description c cmds imps dirs :
  work c = (cmds, imps, dirs) ->
  runs (run_command sys cmd description) c
       (command_result (subprocess_run sys (List.length cmds) cmd))
       ((cmds ++ [cmd])%list, imps, dirs).
Proof.
  intros [= <- <- <-]. apply run_command_run.
Qed.

(** How the imports of [check_dependencies] end. *)
Fixpoint imports_result (modules : list string) : result bool :=
  match modules with
  | [] => Ok true
  | name :: rest =>
      match import_module sys name with
      | Imported => imports_result rest
      | ImportError _ => Ok false
      | ImportRaises e => Error e
      end
  end.

(** The modules whose import imps attempted: up to the first that fails. *)
Fixpoint imports_attempted (modules : list string) : list string :=
  match modules with
  | [] => []
  | name :: rest =>
      name :: match import_module sys name with
              | Imported => imports_attempted rest
              | _ => []
              end
  end.

Lemma import_all_run modules c :
  match fst (import_all sys modules c), imports_result modules with
  | Ok None, Ok true => True
  | Ok (Some _), Ok false => True
  | Error e, Error e' => e = e'
  | _, _ => False
  end /\
  work (snd (import_all sys modules c))
  = (commands_run c, (imports_tried c ++ imports_attempted modules)%list,
     dirs_made c).
Proof.
  revert c. induction modules as [|name rest IH]; intros c.
  - cbn. unfold work. now rewrite app_nil_r.
  - cbn [import_all imports_result imports_attempted].
    destruct (import_module sys name).
    + destruct (IH {| commands_run := commands_run c;
                      imports_tried := (imports_tried c ++ [name])%list;
                      dirs_made := dirs_made c;
                      printed := printed c |}) as [H1 H2].
      split; [exact H1|]. rewrite H2. cbn [commands_run imports_tried dirs_made].
      now rewrite <- app_assoc.
    + now split.
    + now split.
Qed.

Definition dependency_modules : list string :=
  ["selenium"; "pytest"; "requests"].

Lemma runs_check_dependencies c cmds imps dirs :
  work c = (cmds, imps, dirs) ->
  runs (check_dependencies sys) c (imports_result dependency_modules)
       (cmds, (imps ++ imports_attempted dependency_modules)%list, dirs).
Proof.
  intros Hw. unfold check_dependencies.
  eapply runs_then; [apply runs_only_prints; [apply only_prints_echo|exact Hw]|].
  intros c1 H1. unfold runs. rewrite and_then_result, and_then_state.
  destruct (import_all_run dependency_modules c1) as [Hr Hs].
  fold dependency_modules.
  injection H1 as Hc Hi Hd. rewrite Hc, Hi, Hd in Hs.
  destruct (fst (import_all sys dependency_modules c1)) as [[message|]|code|e];
    destruct (imports_result dependency_modules) as [[|]|code'|e'];
    try contradiction.
  - match goal with
    | |- fst (?m ?c') = _ /\ _ =>
        assert (H : only_prints m (Ok false)) by only_prints;
        destruct (H c') as [-> ->]
    end.
    now split.
  - match goal with
    | |- fst (?m ?c') = _ /\ _ =>
        assert (H : only_prints m (Ok true)) by only_prints;
        destruct (H c') as [-> ->]
    end.
    now split.
  - subst e'. now split.
Qed.

(** How [setup_environment] ends. *)
Definition setup_result : result bool :=
  match mkdir sys "test-results" with
  | Return _ => Ok true
  | Raise e => Error e
  end.

Lemma runs_setup_environment c cmds imps dirs :
  work c = (cmds, imps, dirs) ->
  runs (setup_environment sys) c setup_result
       (cmds, imps, (dirs ++ ["test-results"])%list).
Proof.
  intros Hw. unfold setup_environment, setup_result.
  eapply runs_then; [apply runs_only_prints; [apply only_prints_echo|exact Hw]|].
  intros c1 H1. unfold runs. rewrite and_then_result, and_then_state.
  unfold make_dir. injection H1 as Hc Hi Hd.
  destruct (mkdir sys "test-results") as [[]|e]; cbn [fst snd].
  - match goal with
    | |- fst (?m ?c') = _ /\ _ =>
        assert (H : only_prints m (Ok true));
        [|destruct (H c') as [-> ->]]
    end.
    { eapply only_prints_then; [apply only_prints_echo|].
      eapply only_prints_then; [|apply only_prints_pure].
      destruct (negb (file_exists sys ".env")); only_prints. }
    unfold work. cbn. now rewrite Hc, Hi, Hd.
  - unfold work. cbn. now rewrite Hc, Hi, Hd.
Qed.

(** The suite flags with their commands, in the order [main] tests them. *)
Definition priority (args : namespace) : list (bool * list string) :=
  [(ui args, ui_command); (api args, api_command);
   (integration args, integration_command); (quick args, quick_command);
   (health args, health_command); (all args, all_command)].

(** The command of the first flag that is set; the health check when none
    is. *)
Definition selected (args : namespace) : list string :=
  match filter fst (priority args) with
  | (_, cmd) :: _ => cmd
  | [] => health_command
  end.

Lemma runs_run_requested args c cmds imps dirs :
  work c = (cmds, imps, dirs) ->
  runs (run_requested sys args) c
       (command_result (subprocess_run sys (List.length cmds) (selected args)))
       ((cmds ++ [selected args])%list, imps, dirs).
Proof.
  intros Hw. unfold run_requested, selected, priority.
  cbn [filter fst].
  assert (K : forall cmd description c1,
             work c1 = (cmds, imps, dirs) ->
             runs (passed <- run_command sys cmd description ;;
                   pure (true && passed)) c1
                  (command_result (subprocess_run sys (List.length cmds) cmd))
                  ((cmds ++ [cmd])%list, imps, dirs)).
  { intros cmd description c1 H1.
    pose proof (runs_run_command cmd description H1) as [Hr Hs].
    unfold runs. rewrite and_then_result, and_then_state, Hr.
    destruct (subprocess_run sys (List.length cmds) cmd); cbn; auto. }
  destruct (ui args); [now apply K|].
  destruct (api args); [now apply K|].
  destruct (integration args); [now apply K|].
  destruct (quick args); [now apply K|].
  destruct (health args); [now apply K|].
  destruct (all args); [now apply K|].
  eapply runs_then; [apply runs_only_prints; [apply only_prints_echo|exact Hw]|].
  intros c1 H1. now apply K.
Qed.

(** How [main] ends, by how the one command it runs ended. *)
Definition ends (r : run_result) : result unit :=
  match r with
  | Completed _ => Ok tt
  | CalledProcessError _ _ _ => SystemExit 1
  | RunRaises e => Error e
  end.

Lemma runs_to_the_end (cmd : list string) (k : bool -> R unit) m c imps dirs :
  runs m c (command_result (subprocess_run sys 0 cmd)) ([cmd], imps, dirs) ->
  only_prints (k true) (Ok tt) ->
  only_prints (k false) (SystemExit 1) ->
  runs (and_then m k) c (ends (subprocess_run sys 0 cmd)) ([cmd], imps, dirs).
Proof.
  intros Hm Ht Hf.
  destruct (subprocess_run sys 0 cmd) as [out|code out err|e];
    cbn [command_result ends] in *.
  - eapply runs_then; [exact Hm|]. intros c1 H1.
    now apply runs_only_prints.
  - eapply runs_then; [exact Hm|]. intros c1 H1.
    now apply runs_only_prints.
  - now apply runs_stop_error.
Qed.

Definition main_result (args : namespace) : result unit :=
  if install_deps args then ends (subprocess_run sys 0 install_command)
  else
    match imports_result dependency_modules with
    | Ok true =>
        match setup_result with
        | Ok true => ends (subprocess_run sys 0 (selected args))
        | Ok false => SystemExit 1
        | SystemExit code => SystemExit code
        | Error e => Error e
        end
    | Ok false => SystemExit 1
    | SystemExit code => SystemExit code
    | Error e => Error e
    end.

Definition main_work (args : namespace)
  : list (list string) * list string * list string :=
  if install_deps args then ([install_command], [], [])
  else
    match imports_result dependency_modules with
    | Ok true =>
        match setup_result with
        | Ok true =>
            ([selected args], imports_attempted dependency_modules,
             ["test-results"])
        | _ => ([], imports_attempted dependency_modules, ["test-results"])
        end
    | _ => ([], imports_attempted dependency_modules, [])
    end.

(** A whole run of the runner. *)
Lemma main_runs (args : namespace) :
  runs (main sys args) fresh (main_result args) (main_work args).
Proof.
  unfold main, main_result, main_work.
  eapply runs_then;
    [apply runs_only_prints; [apply only_prints_echo|reflexivity]|].
  intros c1 H1.
  eapply runs_then; [apply runs_only_prints; [apply only_prints_echo|exact H1]|].
  intros c2 H2. destruct (install_deps args).
  - eapply runs_then;
      [apply runs_only_prints; [apply only_prints_echo|exact H2]|].
    intros c3 H3.
    apply runs_to_the_end.
    + exact (runs_run_command install_command "Installing Dependencies" H3).
    + only_prints.
    + only_prints.
  - pose proof (runs_check_dependencies H2) as Hd. cbn [app] in Hd.
    destruct (imports_result dependency_modules) as [[|]|code|e].
    + eapply runs_then; [exact Hd|]. intros c3 H3. cbn [negb].
      eapply runs_then;
        [apply runs_only_prints; [apply only_prints_pure|exact H3]|].
      intros c4 H4.
      pose proof (runs_setup_environment H4) as Hs. cbn [app] in Hs.
      destruct setup_result as [[|]|code|e].
      * eapply runs_then; [exact Hs|]. intros c5 H5. cbn [negb].
        eapply runs_then;
          [apply runs_only_prints; [apply only_prints_pure|exact H5]|].
        intros c6 H6.
        apply runs_to_the_end.
        -- exact (runs_run_requested args H6).
        -- only_prints.
        -- only_prints.
      * eapply runs_then; [exact Hs|]. intros c5 H5. cbn [negb].
        apply runs_stop_exit. apply runs_only_prints; [only_prints|exact H5].
      * now apply runs_stop_exit.
      * now apply runs_stop_error.
    + eapply runs_then; [exact Hd|]. intros c3 H3. cbn [negb].
      apply runs_stop_exit. apply runs_only_prints; [only_prints|exact H3].
    + now apply runs_stop_exit.
    + now apply runs_stop_error.
Qed.

Lemma imports_result_not_exit modules code :
  imports_result modules <> SystemExit code.
Proof.
  induction modules as [|name rest IH]; cbn; [discriminate|].
  destruct (import_module sys name); [exact IH|discriminate|discriminate].
Qed.

Lemma imports_result_true modules :
  imports_result modules = Ok true <->
  Forall (fun name => import_module sys name = Imported) modules.
Proof.
  induction modules as [|name rest IH]; cbn.
  - split; auto.
  - destruct (import_module sys name) eqn:E.
    + rewrite IH. split; [intros H; now constructor|].
      intros H. now inversion H.
    + split; [discriminate|]. intros H. inversion H. congruence.
    + split; [discriminate|]. intros H. inversion H. congruence.
Qed.

(** X8. [run_command] runs the command it is given, once.  It returns
    [True] exactly when the process completed with exit status 0 and
    [False] exactly when [subprocess.run] raised [CalledProcessError]; any
    other exception of [subprocess.run] is raised again; it never exits. *)
Theorem run_command_outcome (cmd : list string) (description : string)
        (c : console) :
  let r := subprocess_run sys (List.length (commands_run c)) cmd in
  commands_run (snd (run_command sys cmd description c))
  = (commands_run c ++ [cmd])%list /\
  (fst (run_command sys cmd description c) = Ok true <->
   exists out, r = Completed out) /\
  (fst (run_command sys cmd description c) = Ok false <->
   exists code out err, r = CalledProcessError code out err) /\
  (forall e, fst (run_command sys cmd description c) = Error e <->
             r = RunRaises e) /\
  (forall code, fst (run_command sys cmd description c) <> SystemExit code).
Proof.
  cbv zeta. destruct (run_command_run cmd description c) as [-> Hw].
  injection Hw as -> _ _. split; [reflexivity|].
  destruct (subprocess_run sys (List.length (commands_run c)) cmd)
    as [out|code out err|e]; cbn [command_result].
  - repeat split; try discriminate; eauto.
    + intros (? & ? & ? & H); discriminate H.
  - repeat split; try discriminate; eauto.
    + intros (? & H); discriminate H.
  - repeat split; try discriminate.
    + intros (? & H); discriminate H.
    + intros (? & ? & ? & H); discriminate H.
    + now intros [= ->].
    + now intros [= ->].
Qed.

(** X9. [check_dependencies] returns [True] exactly when [selenium],
    [pytest] and [requests] all import.  It stops at the first import that
    fails, runs no command and makes no directory. *)
Theorem check_dependencies_outcome (c : console) :
  (fst (check_dependencies sys c) = Ok true <->
   import_module sys "selenium" = Imported /\
   import_module sys "pytest" = Imported /\
   import_module sys "requests" = Imported) /\
  commands_run (snd (check_dependencies sys c)) = commands_run c /\
  dirs_made (snd (check_dependencies sys c)) = dirs_made c /\
  imports_tried (snd (check_dependencies sys c))
  = (imports_tried c
     ++ "selenium"
        :: match import_module sys "selenium" with
           | Imported =>
               "pytest"
               :: match import_module sys "pytest" with
                  | Imported => ["requests"]
                  | _ => []
                  end
           | _ => []
           end)%list.
Proof.
  destruct (@runs_check_dependencies c _ _ _ eq_refl) as [-> Hw].
  injection Hw as -> -> ->.
  split; [|repeat split].
  - rewrite imports_result_true. unfold dependency_modules. split.
    + intros H. inversion H as [|? ? Ha Hx]. inversion Hx as [|? ? Hb Hy].
      inversion Hy as [|? ? Hc _]. auto.
    + intros (H1 & H2 & H3). repeat constructor; assumption.
  - cbn [imports_attempted dependency_modules].
    destruct (import_module sys "selenium"); [|reflexivity|reflexivity].
    destruct (import_module sys "pytest"); [|reflexivity|reflexivity].
    now destruct (import_module sys "requests").
Qed.

(** X10. [setup_environment] never returns [False]: it returns [True] when
    the results directory could be made and raises what [mkdir] raised
    otherwise.  So the branch of [main] that reports a failed setup is never
    taken.  It makes the one directory [test-results] and runs no command. *)
Theorem setup_environment_never_false (c : console) :
  fst (setup_environment sys c) <> Ok false /\
  (forall code, fst (setup_environment sys c) <> SystemExit code) /\
  (fst (setup_environment sys c) = Ok true <->
   mkdir sys "test-results" = Return tt) /\
  (forall e, fst (setup_environment sys c) = Error e <->
             mkdir sys "test-results" = Raise e) /\
  dirs_made (snd (setup_environment sys c))
  = (dirs_made c ++ ["test-results"])%list /\
  commands_run (snd (setup_environment sys c)) = commands_run c.
Proof.
  destruct (@runs_setup_environment c _ _ _ eq_refl) as [-> Hw].
  injection Hw as -> _ ->. unfold setup_result.
  destruct (mkdir sys "test-results") as [[]|e];
    repeat split; try discriminate; try reflexivity; congruence.
Qed.

(** X11. Without [--install-deps], once the three modules import and the
    results directory is made, [main] runs exactly one command: that of the
    first flag set among [--ui], [--api], [--integration], [--quick],
    [--health], [--all], in this order, and the health check when none is
    set.  It returns when that command completes, exits with 1 when it
    fails, and raises what [subprocess.run] raised otherwise. *)
Theorem main_runs_selected_suite (args : namespace) :
  install_deps args = false ->
  import_module sys "selenium" = Imported ->
  import_module sys "pytest" = Imported ->
  import_module sys "requests" = Imported ->
  mkdir sys "test-results" = Return tt ->
  commands_run (snd (main sys args fresh)) = [selected args] /\
  fst (main sys args fresh) = ends (subprocess_run sys 0 (selected args)).
Proof.
  intros Hi H1 H2 H3 Hm.
  destruct (main_runs args) as [-> Hw].
  unfold main_result. unfold main_work in Hw. rewrite Hi in *.
  assert (Hd : imports_result dependency_modules = Ok true)
    by (cbn; now rewrite H1, H2, H3).
  assert (Hs : setup_result = Ok true) by (unfold setup_result; now rewrite Hm).
  rewrite Hd, Hs in *. injection Hw as -> _ _. now split.
Qed.

(** X12. Under the same conditions, [--all] runs the whole test suite only
    when it is given alone: with any of [--ui], [--api], [--integration],
    [--quick] or [--health] beside it, that other suite is run instead. *)
Theorem all_flag_needs_to_be_alone (args : namespace) :
  install_deps args = false ->
  import_module sys "selenium" = Imported ->
  import_module sys "pytest" = Imported ->
  import_module sys "requests" = Imported ->
  mkdir sys "test-results" = Return tt ->
  commands_run (snd (main sys args fresh)) = [all_command] <->
  all args = true /\ ui args = false /\ api args = false /\
  integration args = false /\ quick args = false /\ health args = false.
Proof.
  intros Hi H1 H2 H3 Hm.
  destruct (main_runs args) as [_ Hw].
  unfold main_work in Hw. rewrite Hi in Hw.
  assert (Hd : imports_result dependency_modules = Ok true)
    by (cbn; now rewrite H1, H2, H3).
  assert (Hs : setup_result = Ok true) by (unfold setup_result; now rewrite Hm).
  rewrite Hd, Hs in Hw. injection Hw as -> _ _.
  unfold selected, priority. cbn [filter fst].
  destruct (ui args), (api args), (integration args), (quick args),
    (health args), (all args); cbn [filter fst];
    (split; [intros H; try discriminate H; repeat split; reflexivity
            |intros (A & B & C & D & E & F);
             first [reflexivity | discriminate]]).
Qed.

(** X13. With [--install-deps], [main] does nothing but run
    [pip install -r requirements-test.txt]: it imports no module, makes no
    directory and runs no test, whatever the other flags.  It returns when
    [pip] completes and exits with 1 when it fails. *)
Theorem install_deps_only_installs (args : namespace) :
  install_deps args = true ->
  commands_run (snd (main sys args fresh)) = [install_command] /\
  imports_tried (snd (main sys args fresh)) = [] /\
  dirs_made (snd (main sys args fresh)) = [] /\
  fst (main sys args fresh) = ends (subprocess_run sys 0 install_command).
Proof.
  intros Hi. destruct (main_runs args) as [-> Hw].
  unfold main_result. unfold main_work in Hw. rewrite Hi in *.
  injection Hw as -> -> ->. repeat split.
Qed.

(** X14. Without [--install-deps], when one of the three modules fails to
    import with [ImportError], [main] exits with 1 before doing anything
    else: no command is run and no directory is made. *)
Theorem missing_dependency_stops (args : namespace) :
  install_deps args = false ->
  imports_result dependency_modules = Ok false ->
  fst (main sys args fresh) = SystemExit 1 /\
  commands_run (snd (main sys args fresh)) = [] /\
  dirs_made (snd (main sys args fresh)) = [].
Proof.
  intros Hi Hd. destruct (main_runs args) as [-> Hw].
  unfold main_result. unfold main_work in Hw. rewrite Hi, Hd in *.
  injection Hw as -> _ ->. repeat split.
Qed.

(** Once the flags are parsed, [main] runs at most one command, and when it
    exits it exits with 1. *)
Lemma main_after_parsing (args : namespace) :
  (List.length (commands_run (snd (main sys args fresh))) <= 1)%nat /\
  (forall code, fst (main sys args fresh) = SystemExit code -> code = 1).
Proof.
  destruct (main_runs args) as [-> Hw].
  unfold main_result. unfold main_work in Hw.
  assert (He : forall r code, ends r = SystemExit code -> code = 1).
  { intros [out|rc out err|e] code; cbn; congruence. }
  destruct (install_deps args).
  - injection Hw as -> _ _. split; [cbn; lia|]. apply He.
  - pose proof (imports_result_not_exit dependency_modules) as Hn.
    destruct (imports_result dependency_modules) as [[|]|code'|e].
    + unfold setup_result in *.
      destruct (mkdir sys "test-results") as [[]|e];
        injection Hw as -> _ _; (split; [cbn; lia|]).
      * apply He.
      * discriminate.
    + injection Hw as -> _ _. split; [cbn; lia|congruence].
    + now destruct (Hn code').
    + injection Hw as -> _ _. split; [cbn; lia|discriminate].
Qed.

(** X15. Whatever the command line and the system, a run of the runner
    runs at most one command.  Asked for help, it prints the help text and
    exits with 0, and does nothing else.  On a command line that the parser
    rejects it exits with 2 and does nothing at all.  On any other command
    line the run is that of [main] on the parsed flags, and when that
    exits, it exits with 1. *)
Theorem runner_exit_status :
  (forall line,
      (List.length
         (commands_run (snd (main_from_command_line sys line fresh)))
       <= 1)%nat) /\
  (forall text,
      main_from_command_line sys (Help text) fresh
      = (SystemExit 0,
         {| commands_run := []; imports_tried := []; dirs_made := [];
            printed := [[Str text]] |})) /\
  main_from_command_line sys Rejected fresh = (SystemExit 2, fresh) /\
  (forall args,
      main_from_command_line sys (Flags args) fresh = main sys args fresh) /\
  (forall line code,
      fst (main_from_command_line sys line fresh) = SystemExit code ->
      match line with
      | Flags _ => code = 1
      | Help _ => code = 0
      | Rejected => code = 2
      end).
Proof.
  split; [|split; [|split; [|split]]].
  - intros [args|text|].
    + exact (proj1 (main_after_parsing args)).
    + cbn. lia.
    + cbn. lia.
  - reflexivity.
  - reflexivity.
  - reflexivity.
  - intros [args|text|] code.
    + exact (proj2 (main_after_parsing args) code).
    + now intros [= <-].
    + now intros [= <-].
Qed.
End Facts.

(** Systems used as examples. *)
Definition friendly : system :=
  {| subprocess_run := fun _ _ => Completed "4 passed";
     import_module := fun _ => Imported;
     mkdir := fun _ => Return tt;
     file_exists := fun _ => true |}.

Definition failing : system :=
  {| subprocess_run := fun _ _ => CalledProcessError 1 "1 failed" "";
     import_module := fun _ => Imported;
     mkdir := fun _ => Return tt;
     file_exists := fun _ => false |}.

Definition without_selenium : system :=
  {| subprocess_run := fun _ _ => Completed "";
     import_module := fun name =>
       if String.eqb name "selenium"
       then ImportError "No module named 'selenium'" else Imported;
     mkdir := fun _ => Return tt;
     file_exists := fun _ => true |}.

Definition flags_all_and_ui : namespace :=
  {| all := true; ui := true; api := false; integration := false;
     quick := false; health := false; install_deps := false |}.

Definition flags_all : namespace :=
  {| all := true; ui := false; api := false; integration := false;
     quick := false; health := false; install_deps := false |}.

Definition flags_install : namespace :=
  {| all := true; ui := false; api := false; integration := false;
     quick := false; health := false; install_deps := true |}.

Lemma main_runs_selected_suite_witness :
  commands_run (snd (main friendly flags_all_and_ui fresh)) = [ui_command].
Proof.
  exact (proj1 (main_runs_selected_suite friendly flags_all_and_ui
                  eq_refl eq_refl eq_refl eq_refl eq_refl)).
Defined.

Lemma all_flag_needs_to_be_alone_witness :
  commands_run (snd (main failing flags_all fresh)) = [all_command].
Proof.
  apply (proj2 (all_flag_needs_to_be_alone failing flags_all
                  eq_refl eq_refl eq_refl eq_refl eq_refl)).
  repeat split.
Defined.

Lemma install_deps_only_installs_witness :
  commands_run (snd (main failing flags_install fresh)) = [install_command]
  /\ fst (main failing flags_install fresh) = SystemExit 1.
Proof.
  destruct (install_deps_only_installs failing flags_install eq_refl)
    as (H1 & _ & _ & H2).
  split; [exact H1 | exact H2].
Defined.

Lemma missing_dependency_stops_witness :
  fst (main without_selenium flags_all fresh) = SystemExit 1.
Proof.
  exact (proj1 (missing_dependency_stops without_selenium flags_all
                  eq_refl eq_refl)).
Defined.

End RunTestsFacts.

(** * Two tests of the suite: a model of parts of [tests/]

    [test_system_health_summary] of [tests/test_integration.py] is the test
    the runner runs by default; it computes a score the way [health_check.py]
    does, from four checks of its own.  [test_api_ssl_validation] of
    [tests/test_api_health.py] checks the schemes of the three URLs.  A test
    passes when it returns and fails when it raises. *)

Module Tests.
Import HealthCheck.

(** What the tests use of the Selenium driver: [driver.get(url)], and
    [WebDriverWait(driver, timeout).until(EC.presence_of_element_located(
    (by, value)))]. *)
Record browser := {
  driver_get : string -> outcome unit;
  wait_until_present : Z -> string -> string -> outcome unit
}.

Definition AssertionError (message : string) : exn :=
  {| exn_class := "AssertionError";
     is_SSLError := false; is_ConnectionError := false; is_Timeout := false;
     is_Exception := true; is_KeyboardInterrupt := false;
     exn_str := message |}.

(** [assert condition, message]. *)
Definition py_assert (condition : bool) (message : string) : M unit :=
  if condition then ret tt else raise (AssertionError message).

(** [try: body / except: handler], the bare [except] that catches every
    exception. *)
Definition try_except_all {A} (body : M A) (handler : M A) : M A :=
  try_except body (fun _ => Some handler).

Section Suite.
Variable w : world.
Variable driver : browser.
(** [str(x)] for a float, as an f-string without format renders it. *)
Variable repr_float : float -> string.

(** [session.get(url, timeout=timeout)]. *)
Definition session_get (session : Conftest.session) (url : string)
           (timeout : Z) : M response :=
  fun s =>
    let r := Conftest.session_get (getenv w) session url timeout in
    (http_get w (List.length (requests_sent s)) r,
     {| requests_sent := (requests_sent s ++ [r])%list;
        clock_reads := clock_reads s;
        stdout := stdout s |}).

(** The dictionary literal [health_status] of the summary test. *)
Definition summary_health_status : Py.dict bool :=
  [("dashboard_ui", false); ("manager_api", false);
   ("indexer_api", false); ("ssl_connections", false)].

(** "Test Dashboard UI". *)
Definition summary_dashboard (test_config : Py.dict string)
           (health_status : Py.dict bool) : M (Py.dict bool) :=
  try_except_all
    (url <- subscript test_config "dashboard_url" ;;
     lift (driver_get driver url) ;;
     lift (wait_until_present driver 10 "tag name" "body") ;;
     let health_status := Py.setitem health_status "dashboard_ui" true in
     print_str "✓ Dashboard UI: Healthy" ;;
     ret health_status)
    (print_str "✗ Dashboard UI: Unhealthy" ;;
     ret health_status).

(** "Test Manager API" and "Test Indexer API": the same lines for the entry
    [key], shown as [label], of the URL under [config_key]. *)
Definition summary_api (api_session : Conftest.session)
           (config_key label key : string) (test_config : Py.dict string)
           (health_status : Py.dict bool) : M (Py.dict bool) :=
  try_except_all
    (url <- subscript test_config config_key ;;
     response <- session_get api_session (url ++ "/") 10 ;;
     if status_code response =? 200 then
       let health_status := Py.setitem health_status key true in
       print_str ("✓ " ++ label ++ ": Healthy") ;;
       ret health_status
     else
       print_str ("⚠ " ++ label ++ ": Status "
                  ++ Py.str_of_int (status_code response)) ;;
       ret health_status)
    (print_str ("✗ " ++ label ++ ": Unhealthy") ;;
     ret health_status).

(** "Test SSL connections". *)
Definition summary_ssl (api_session : Conftest.session)
           (test_config : Py.dict string) (health_status : Py.dict bool)
  : M (Py.dict bool) :=
  try_except_all
    (url <- subscript test_config "dashboard_url" ;;
     session_get api_session url 5 ;;
     let health_status := Py.setitem health_status "ssl_connections" true in
     print_str "✓ SSL Connections: Healthy" ;;
     ret health_status)
    (print_str "✗ SSL Connections: Issues detected" ;;
     ret health_status).

(** [if not health_status[key]: print(hint)]. *)
Definition summary_hint (health_status : Py.dict bool) (key hint : string)
  : M unit :=
  status <- subscript health_status key ;;
  if negb status then print_str hint else ret tt.

(** The end of the summary test: score, recommendations and the
    assertion. *)
Definition summary_verdict (health_status : Py.dict bool) : M unit :=
  let healthy_components := Py.sum (Py.values health_status) in
  let total_components := Py.len health_status in
  score <- lift (health_score health_status) ;;
  print [Str (Py.nl ++ "📊 System Health Score: "); Fixed 1 (Py.Float score);
         Str ("% (" ++ Py.str_of_int healthy_components ++ "/"
              ++ Py.str_of_int total_components ++ " components healthy)")] ;;
  (if PrimFloat.ltb score 100 then
     print_str (Py.nl ++ "🔧 Recommendations:") ;;
     summary_hint health_status "dashboard_ui"
       "  - Check dashboard service status and network connectivity" ;;
     summary_hint health_status "manager_api"
       "  - Verify manager service is running and API is accessible" ;;
     summary_hint health_status "indexer_api"
       "  - Check indexer service status and cluster health" ;;
     summary_hint health_status "ssl_connections"
       "  - Verify SSL certificates and network configuration"
   else ret tt) ;;
  py_assert (PrimFloat.leb 75 score)
            ("System health score " ++ repr_float score
             ++ "% is below 75% threshold").

Definition test_system_health_summary (api_session : Conftest.session)
           (test_config : Py.dict string) : M unit :=
  let health_status := summary_health_status in
  health_status <- summary_dashboard test_config health_status ;;
  health_status <- summary_api api_session "manager_api_url" "Manager API"
                     "manager_api" test_config health_status ;;
  health_status <- summary_api api_session "indexer_url" "Indexer API"
                     "indexer_api" test_config health_status ;;
  health_status <- summary_ssl api_session test_config health_status ;;
  summary_verdict health_status.



(** The loop of [test_ssl_certificate_validation]. *)
Fixpoint try_each_endpoint (api_session : Conftest.session)
         (endpoints : list string) : M unit :=
  match endpoints with
  | [] => ret tt
  | endpoint :: rest =>
      try_except
        (session_get api_session endpoint 10 ;;
         print_str ("✓ SSL connection successful to " ++ endpoint))
        (fun e =>
           if is_Exception e
           then Some (print_str ("⚠ SSL connection issue with " ++ endpoint
                                 ++ ": " ++ exn_str e))
           else None) ;;
      try_each_endpoint api_session rest
  end.

Definition test_ssl_certificate_validation (api_session : Conftest.session)
           (test_config : Py.dict string) : M unit :=
  dashboard_url <- subscript test_config "dashboard_url" ;;
  manager_api_url <- subscript test_config "manager_api_url" ;;
  indexer_url <- subscript test_config "indexer_url" ;;
  try_each_endpoint api_session [dashboard_url; manager_api_url; indexer_url].

End Suite.
End Tests.

(** * Properties of the two tests *)

Module TestsFacts.
Import HealthCheck Tests.

Section Facts.
Variable w : world.
Variable driver : browser.
Variable repr_float : float -> string.
Variable api_session : Conftest.session.

(** The configuration the fixture gives: the URLs under their keys. *)
Variable test_config : Py.dict string.
Variables dashboard manager indexer : string.
Hypothesis dashboard_configured :
  Py.getitem test_config "dashboard_url" = Some dashboard.
Hypothesis manager_configured :
  Py.getitem test_config "manager_api_url" = Some manager.
Hypothesis indexer_configured :
  Py.getitem test_config "indexer_url" = Some indexer.

(** The four checks of the summary test. *)
Definition page_loaded : bool :=
  match driver_get driver dashboard with
  | Return _ =>
      match wait_until_present driver 10 "tag name" "body" with
      | Return _ => true
      | Raise _ => false
      end
  | Raise _ => false
  end.

Definition summary_requests : list request :=
  [Conftest.session_get (getenv w) api_session (manager ++ "/") 10;
   Conftest.session_get (getenv w) api_session (indexer ++ "/") 10;
   Conftest.session_get (getenv w) api_session dashboard 5].

Definition manager_ok : bool :=
  responded_200
    (http_get w 0
       (Conftest.session_get (getenv w) api_session (manager ++ "/") 10)).
Definition indexer_ok : bool :=
  responded_200
    (http_get w 1
       (Conftest.session_get (getenv w) api_session (indexer ++ "/") 10)).
Definition answered : bool :=
  match http_get w 2
          (Conftest.session_get (getenv w) api_session dashboard 5) with
  | Return _ => true
  | Raise _ => false
  end.

Lemma summary_dashboard_run hs s :
  fst (summary_dashboard driver test_config hs s)
  = Return (record hs "dashboard_ui" page_loaded) /\
  requests_sent (snd (summary_dashboard driver test_config hs s))
  = requests_sent s.
Proof.
  unfold summary_dashboard, try_except_all, try_except, subscript, bind, lift,
    print_str, print, ret, page_loaded, record.
  rewrite dashboard_configured.
  destruct (driver_get driver dashboard) as [[]|e]; [|now split].
  destruct (wait_until_present driver 10 "tag name" "body") as [[]|e];
    now split.
Qed.

Lemma summary_api_run config_key label key url hs s :
  Py.getitem test_config config_key = Some url ->
  fst (summary_api w api_session config_key label key test_config hs s)
  = Return (record hs key
              (responded_200
                 (http_get w (List.length (requests_sent s))
                    (Conftest.session_get (getenv w) api_session
                       (url ++ "/") 10)))) /\
  requests_sent
    (snd (summary_api w api_session config_key label key test_config hs s))
  = (requests_sent s
     ++ [Conftest.session_get (getenv w) api_session (url ++ "/") 10])%list.
Proof.
  intros H.
  unfold summary_api, try_except_all, try_except, subscript, bind, session_get,
    print_str, print, ret, record, responded_200.
  rewrite H. cbn [requests_sent clock_reads stdout].
  destruct (http_get w _ _) as [r|e]; [|now split].
  destruct (status_code r =? 200); now split.
Qed.

Lemma summary_ssl_run hs s :
  fst (summary_ssl w api_session test_config hs s)
  = Return (record hs "ssl_connections"
              match http_get w (List.length (requests_sent s))
                      (Conftest.session_get (getenv w) api_session
                         dashboard 5) with
              | Return _ => true
              | Raise _ => false
              end) /\
  requests_sent (snd (summary_ssl w api_session test_config hs s))
  = (requests_sent s
     ++ [Conftest.session_get (getenv w) api_session dashboard 5])%list.
Proof.
  unfold summary_ssl, try_except_all, try_except, subscript, bind, session_get,
    print_str, print, ret, record.
  rewrite dashboard_configured. cbn [requests_sent clock_reads stdout].
  destruct (http_get w _ _) as [r|e]; now split.
Qed.

Lemma prints_only_summary_verdict hs :
  prints_only (summary_verdict repr_float hs).
Proof.
  unfold summary_verdict, summary_hint, py_assert, print_str. prints.
Qed.

(** How many of the four checks succeeded. *)
Definition checks_passed : Z :=
  Z.b2z page_loaded + Z.b2z manager_ok + Z.b2z indexer_ok + Z.b2z answered.

Lemma summary_verdict_result (b1 b2 b3 b4 : bool) (s : state) :
  let hs := [("dashboard_ui", b1); ("manager_api", b2);
             ("indexer_api", b3); ("ssl_connections", b4)] in
  requests_sent (snd (summary_verdict repr_float hs s)) = requests_sent s /\
  if 3 <=? Z.b2z b1 + Z.b2z b2 + Z.b2z b3 + Z.b2z b4
  then fst (summary_verdict repr_float hs s) = Return tt
  else exists score,
      health_score hs = Return score /\
      fst (summary_verdict repr_float hs s)
      = Raise (AssertionError ("System health score " ++ repr_float score
                               ++ "% is below 75% threshold")).
Proof.
  cbv zeta.
  rewrite (prints_only_run (prints_only_summary_verdict _) s).
  cbn [fst snd]. split; [reflexivity|].
  destruct b1, b2, b3, b4; cbn [Z.b2z Z.add Z.leb Z.compare Pos.compare
                                 Pos.compare_cont Pos.add Pos.succ];
    first [ vm_compute; reflexivity
          | eexists; split; vm_compute; reflexivity ].
Qed.

(** X16. The summary test lets no failure of a check escape: its bare
    [except] clauses catch every exception, [KeyboardInterrupt] included.
    It always sends the same three requests, in the same order, and it
    passes exactly when at least three of its four checks succeeded: the
    page loaded, the manager answered 200, the indexer answered 200, and the
    dashboard answered at all.  When it fails it is by its own assertion. *)
Theorem summary_passes_iff_three_checks :
  requests_sent
    (snd (test_system_health_summary w driver repr_float api_session
            test_config initial_state))
  = summary_requests /\
  (fst (test_system_health_summary w driver repr_float api_session
          test_config initial_state) = Return tt <->
   3 <= checks_passed) /\
  (forall e,
      fst (test_system_health_summary w driver repr_float api_session
             test_config initial_state) = Raise e ->
      exn_class e = "AssertionError" /\ checks_passed <= 2).
Proof.
  unfold test_system_health_summary.
  rewrite !bind_result, !bind_state.
  destruct (summary_dashboard_run summary_health_status initial_state)
    as [-> R1].
  set (s1 := snd (summary_dashboard driver test_config summary_health_status
                    initial_state)) in *.
  clearbody s1. cbn [requests_sent initial_state] in R1.
  cbv beta iota. rewrite ?bind_result, ?bind_state.
  destruct (@summary_api_run "manager_api_url" "Manager API" "manager_api"
              manager
              (record summary_health_status "dashboard_ui" page_loaded) s1
              manager_configured) as [-> R2].
  rewrite R1 in *. cbn [List.length app] in *.
  set (s2 := snd (summary_api w api_session "manager_api_url" "Manager API"
                    "manager_api" test_config _ s1)) in *.
  clearbody s2. fold manager_ok.
  cbv beta iota. rewrite ?bind_result, ?bind_state.
  match goal with
  | |- context [summary_api w api_session "indexer_url" "Indexer API"
                  "indexer_api" test_config ?hs s2] =>
      destruct (@summary_api_run "indexer_url" "Indexer API" "indexer_api"
                  indexer hs s2 indexer_configured) as [-> R3];
      set (s3 := snd (summary_api w api_session "indexer_url" "Indexer API"
                        "indexer_api" test_config hs s2)) in *
  end.
  clearbody s3. rewrite R2 in *. cbn [List.length app] in *. fold indexer_ok.
  cbv beta iota. rewrite ?bind_result, ?bind_state.
  match goal with
  | |- context [summary_ssl w api_session test_config ?hs s3] =>
      destruct (summary_ssl_run hs s3) as [-> R4];
      set (s4 := snd (summary_ssl w api_session test_config hs s3)) in *
  end.
  clearbody s4. rewrite R3 in *. cbn [List.length app] in *. fold answered.
  cbv beta iota.
  unfold record, summary_health_status, checks_passed.
  destruct page_loaded, manager_ok, indexer_ok, answered;
    cbn [Py.setitem String.eqb Ascii.eqb Bool.eqb];
    match goal with
    | |- context [summary_verdict repr_float
                    [(_, ?b1); (_, ?b2); (_, ?b3); (_, ?b4)] s4] =>
        destruct (summary_verdict_result b1 b2 b3 b4 s4) as [Q V]
    end;
    cbv zeta in Q, V; rewrite Q, R4;
    (split; [reflexivity|]);
    cbn [Z.b2z Z.add Z.leb Z.compare Pos.compare Pos.compare_cont Pos.add
         Pos.succ] in V |- *;
    first [ rewrite V; split; [split; [intros _; lia|reflexivity]
                              |intros e; discriminate]
          | destruct V as (score & _ & ->);
            split; [split; [discriminate|lia]
                   |intros e [= <-]; split; [reflexivity|lia]] ].
Qed.


Lemma try_each_endpoint_run (endpoints : list string) (s : state) :
  (forall n r e, http_get w n r = Raise e -> is_Exception e = true) ->
  fst (try_each_endpoint w api_session endpoints s) = Return tt /\
  requests_sent (snd (try_each_endpoint w api_session endpoints s))
  = (requests_sent s
     ++ map (fun url => Conftest.session_get (getenv w) api_session url 10)
            endpoints)%list.
Proof.
  intros Hx. revert s.
  induction endpoints as [|url rest IH]; intros s; cbn [try_each_endpoint map].
  - now rewrite app_nil_r.
  - rewrite bind_result, bind_state.
    assert (H : fst (try_except
                       (session_get w api_session url 10 ;;
                        print_str ("✓ SSL connection successful to " ++ url))
                       (fun e =>
                          if is_Exception e
                          then Some (print_str
                                       ("⚠ SSL connection issue with " ++ url
                                        ++ ": " ++ exn_str e))
                          else None) s) = Return tt /\
                requests_sent
                  (snd (try_except
                          (session_get w api_session url 10 ;;
                           print_str ("✓ SSL connection successful to "
                                      ++ url))
                          (fun e =>
                             if is_Exception e
                             then Some (print_str
                                          ("⚠ SSL connection issue with "
                                           ++ url ++ ": " ++ exn_str e))
                             else None) s))
                = (requests_sent s
                   ++ [Conftest.session_get (getenv w) api_session url 10])%list).
    { unfold try_except, bind, session_get, print_str, print.
      destruct (http_get w _ _) as [r|e] eqn:E; [now split|].
      rewrite (Hx _ _ _ E). now split. }
    destruct H as [-> H].
    match goal with
    | |- context [try_each_endpoint w api_session rest ?st] =>
        destruct (IH st) as [-> ->]
    end.
    split; [reflexivity|]. rewrite H. now rewrite <- app_assoc.
Qed.

(** X18. [test_ssl_certificate_validation] asserts nothing: as long as what
    [requests] raises is an instance of [Exception], it passes, whatever the
    three endpoints answer and whether or not they answer.  It sends one
    request to each configured URL, in the order dashboard, manager,
    indexer.  Through the session of the fixture, these requests have
    certificate verification off when neither [REQUESTS_CA_BUNDLE] nor
    [CURL_CA_BUNDLE] names a bundle, and on, against that bundle, when one
    of them does: the [session.verify = False] of the fixture does not
    decide it alone. *)
Theorem ssl_certificate_test_always_passes (s : state) :
  (forall n r e, http_get w n r = Raise e -> is_Exception e = true) ->
  fst (test_ssl_certificate_validation w api_session test_config s)
  = Return tt /\
  requests_sent
    (snd (test_ssl_certificate_validation w api_session test_config s))
  = (requests_sent s
     ++ [Conftest.session_get (getenv w) api_session dashboard 10;
         Conftest.session_get (getenv w) api_session manager 10;
         Conftest.session_get (getenv w) api_session indexer 10])%list /\
  (api_session = Conftest.api_session ->
   (Conftest.ca_bundle (getenv w) = None ->
    Forall (fun r => req_verify r = false)
           [Conftest.session_get (getenv w) api_session dashboard 10;
            Conftest.session_get (getenv w) api_session manager 10;
            Conftest.session_get (getenv w) api_session indexer 10]) /\
   (forall path,
       Conftest.ca_bundle (getenv w) = Some path ->
       Forall (fun r => req_verify r = true)
              [Conftest.session_get (getenv w) api_session dashboard 10;
               Conftest.session_get (getenv w) api_session manager 10;
               Conftest.session_get (getenv w) api_session indexer 10])).
Proof.
  intros Hx.
  assert (Hr : fst (test_ssl_certificate_validation w api_session test_config
                      s)
               = fst (try_each_endpoint w api_session
                        [dashboard; manager; indexer] s) /\
               snd (test_ssl_certificate_validation w api_session test_config
                      s)
               = snd (try_each_endpoint w api_session
                        [dashboard; manager; indexer] s)).
  { unfold test_ssl_certificate_validation, subscript.
    rewrite manager_configured, indexer_configured, dashboard_configured.
    split; reflexivity. }
  destruct Hr as [-> ->].
  destruct (try_each_endpoint_run [dashboard; manager; indexer] s Hx)
    as [-> ->].
  split; [reflexivity|]. split; [reflexivity|].
  intros ->. unfold Conftest.session_get, Conftest.merge_environment_settings.
  cbn [Conftest.trust_env Conftest.api_session Conftest.set_verify
       Conftest.mount Conftest.new_session Conftest.session_verify].
  split.
  - intros ->. repeat constructor.
  - intros path ->. repeat constructor.
Qed.
End Facts.

(** A browser in which every page loads. *)
Definition loading : browser :=
  {| driver_get := fun _ => Return tt;
     wait_until_present := fun _ _ _ => Return tt |}.

Definition all_up : world :=
  Examples.answering (Return {| status_code := 200 |}).

Lemma summary_passes_iff_three_checks_witness :
  fst (test_system_health_summary all_up loading (fun _ => "100.0")
         Conftest.api_session (load_config all_up) initial_state)
  = Return tt.
Proof.
  apply (proj1 (proj2 (summary_passes_iff_three_checks
                         all_up loading (fun _ => "100.0")
                         Conftest.api_session (load_config all_up)
                         eq_refl eq_refl eq_refl))).
  vm_compute. discriminate.
Defined.


Lemma ssl_certificate_test_always_passes_witness :
  fst (test_ssl_certificate_validation
         (Examples.answering (Raise Examples.connection_refused))
         Conftest.api_session
         (load_config (Examples.answering (Raise Examples.connection_refused)))
         initial_state)
  = Return tt.
Proof.
  refine (proj1 (ssl_certificate_test_always_passes
                   (Examples.answering (Raise Examples.connection_refused))
                   Conftest.api_session
                   (load_config
                      (Examples.answering (Raise Examples.connection_refused)))
                   eq_refl eq_refl eq_refl initial_state _)).
  intros n r e [= <-]. reflexivity.
Defined.

(** The environment decides: the same call through the session of the
    fixture is sent without verification in an empty environment, and with
    verification once [REQUESTS_CA_BUNDLE] names a bundle.  An empty value
    counts as unset, and [CURL_CA_BUNDLE] is read after
    [REQUESTS_CA_BUNDLE]. *)
Example session_request_verification :
  let request_in environ :=
    Conftest.session_get environ Conftest.api_session
                         "https://localhost:55000" 10 in
  req_verify (request_in (fun _ => None)) = false /\
  req_verify
    (request_in (fun name => if String.eqb name "REQUESTS_CA_BUNDLE"
                             then Some "/etc/ssl/certs/ca.pem" else None))
  = true /\
  req_verify
    (request_in (fun name => if String.eqb name "REQUESTS_CA_BUNDLE"
                             then Some "" else None))
  = false /\
  req_verify
    (request_in (fun name => if String.eqb name "CURL_CA_BUNDLE"
                             then Some "/etc/ssl/certs/ca.pem" else None))
  = true.
Proof. repeat split. Qed.

End TestsFacts.
